(** * News retrieval over RPP feeds: a shallow embedding of the Python sources

    The development follows the modules of the repository:
    - [Tokenization]          src/tokenization.py
    - [Chroma]                the chromadb collection the retriever drives
    - [NewsEmbedder]          src/embeddings.py
    - [NewsRetriever]         src/retrieval.py
    - [NewsRetrievalPipeline] src/pipeline.py

    Python integers are [Z], strings are [string], dictionaries that are
    only looked up are [gmap string _], dictionary literals whose key
    order is observable (rows handed to pandas) are association lists.
    Vectors are lists of binary64 floats, as numpy's [tolist] yields them;
    the collection keeps them as 32-bit floats, and the only arithmetic
    on floats here is that rounding and the true division of two
    integers.  Code that can raise returns a [result]; methods that print
    or update their object run in the monad [M], whose state is the
    object together with the lines written to standard output. *)

From Stdlib Require Import Floats.PrimFloat Floats.SpecFloat Floats.FloatOps.
From stdpp Require Import gmap strings list fin_maps pretty.

Open Scope string_scope.
Open Scope list_scope.

(** ** Python values, exceptions and effects *)

(** The exceptions this code base can raise or let through.  The two
    chromadb classes carry no message here; they stand for the class the
    installed release raises for a repeated id and for a vector of the
    wrong dimension. *)
Inductive exn : Type :=
| KeyError (key : string)
| ValueError (msg : string)
| TypeError (msg : string)
| IndexError (msg : string)
| ZeroDivisionError (msg : string)
| OverflowError (msg : string)
| DuplicateIDError
| InvalidDimensionException.

(** The Python class name of an exception, what an [except] clause matches. *)
Definition exn_class (e : exn) : string :=
  match e with
  | KeyError _ => "KeyError"
  | ValueError _ => "ValueError"
  | TypeError _ => "TypeError"
  | IndexError _ => "IndexError"
  | ZeroDivisionError _ => "ZeroDivisionError"
  | OverflowError _ => "OverflowError"
  | DuplicateIDError => "DuplicateIDError"
  | InvalidDimensionException => "InvalidDimensionException"
  end.

Inductive result (A : Type) : Type :=
| Ok (a : A)
| Raise (e : exn).
Arguments Ok {A} a.
Arguments Raise {A} e.

#[global] Instance result_ret : MRet result := fun _ a => Ok a.
#[global] Instance result_bind : MBind result := fun _ _ f m =>
  match m with
  | Ok a => f a
  | Raise e => Raise e
  end.

(** Dynamically typed values where the code returns or stores them. *)
Inductive pyval : Type :=
| PyNone
| PyInt (z : Z)
| PyStr (s : string).

(** A number as [/] and a literal [0] produce it: true division gives a
    float, the literal an integer. *)
Inductive pynum : Type :=
| PyI (z : Z)
| PyF (f : float).

(** The line feed of an f-string's [\n]. *)
Definition NL : string := String (Ascii.ascii_of_nat 10) "".
Arguments NL : simpl never.

(** [str(n)] for a non-negative integer, as an f-string formats it. *)
Definition str_of_nat (n : nat) : string := pretty n.

(** A dictionary literal [{k1: v1, k2: v2, ...}]: later keys win. *)
Definition py_dict {V : Type} (items : list (string * V)) : gmap string V :=
  foldl (fun m kv => <[kv.1 := kv.2]> m) ∅ items.

(** [d.get(key, default)]. *)
Definition dict_get {V : Type} (d : gmap string V) (key : string) (dflt : V) : V :=
  default dflt (d !! key).

(** Truthiness of a list: non-empty. *)
Definition py_bool_list {A : Type} (l : list A) : bool :=
  match l with
  | [] => false
  | _ :: _ => true
  end.

(** The quotient of two integers is too large for a float: rounded to
    nearest, it would reach [2 ^ 1024]. *)
Definition truediv_overflows (a b : Z) : Prop :=
  (Z.abs b * ((2 ^ 54 - 1) * 2 ^ 970) <= Z.abs a)%Z.

#[global] Instance truediv_overflows_dec (a b : Z) : Decision (truediv_overflows a b).
Proof. unfold truediv_overflows. apply _. Defined.

(** The binary64 float nearest to [a / b], ties to even, for [b <> 0]:
    the quotient is taken with at least 56 bits and a sticky bit for the
    remainder, then rounded once. *)
Definition round_quotient (a b : Z) : float :=
  let negate := xorb (a <? 0)%Z (b <? 0)%Z in
  let n := Z.abs a in
  let d := Z.abs b in
  let shift := Z.max 0 (Z.log2 d + 56 - Z.log2 n) in
  let q := ((n * 2 ^ shift) `div` d)%Z in
  let sticky := if decide ((n * 2 ^ shift) `mod` d = 0)%Z then 0%Z else 1%Z in
  let m := (2 * q + sticky)%Z in
  SF2Prim (binary_normalize 53 1024 (if negate then (- m)%Z else m)
             (- shift - 1)%Z negate).

(** [a / b] on integers: the correctly rounded quotient, as CPython
    computes it for integers of any size. *)
Definition py_truediv (a b : Z) : result float :=
  if decide (b = 0%Z) then Raise (ZeroDivisionError "division by zero")
  else if decide (truediv_overflows a b) then
    Raise (OverflowError "integer division result too large for a float")
  else Ok (round_quotient a b).

(** [sum(l)], [min(l)] and [max(l)] on a list of integers. *)
Definition py_sum (l : list Z) : Z := foldl Z.add 0%Z l.

Definition py_min (l : list Z) : result Z :=
  match l with
  | [] => Raise (ValueError "min() arg is an empty sequence")
  | x :: l' => Ok (foldl Z.min x l')
  end.

Definition py_max (l : list Z) : result Z :=
  match l with
  | [] => Raise (ValueError "max() arg is an empty sequence")
  | x :: l' => Ok (foldl Z.max x l')
  end.

(** Methods: the state [S] is the object the method runs on, paired with
    the lines printed so far.  An exception leaves both as they were when
    it was raised. *)
Definition M (S A : Type) : Type := S * list string -> result A * (S * list string).

#[global] Instance M_ret {S : Type} : MRet (M S) := fun _ a st => (Ok a, st).
#[global] Instance M_bind {S : Type} : MBind (M S) := fun _ _ f m st =>
  match m st with
  | (Ok a, st') => f a st'
  | (Raise e, st') => (Raise e, st')
  end.

(** [print(line)] *)
Definition print {S : Type} (line : string) : M S unit :=
  fun st => (Ok tt, (st.1, st.2 ++ [line])).

(** Reading and replacing [self]. *)
Definition get_self {S : Type} : M S S := fun st => (Ok st.1, st).
Definition put_self {S : Type} (s : S) : M S unit := fun st => (Ok tt, (s, st.2)).

(** A computation that only returns or raises. *)
Definition lift {S A : Type} (r : result A) : M S A := fun st => (r, st).

(** An article dictionary: string-valued keys ([title], [description],
    [link], [published], [text], ...) and, once embedded, the key
    [embedding] holding a numpy vector. *)
Record Article : Type := mkArticle {
  fields : gmap string string;
  embedding : option (list float)
}.

(** [f"{article.get('title', '')}\n{article.get('description', '')}"] *)
Definition title_nl_description (article : Article) : string :=
  dict_get (fields article) "title" "" +:+ NL +:+
  dict_get (fields article) "description" "".

(** ** src/tokenization.py *)
Module Tokenization.

Record ArticleTokens : Type := mkArticleTokens {
  at_title : string;
  title_tokens : Z;
  description_tokens : Z;
  at_total_tokens : Z;
  full_text : string
}.

Record CorpusTokens : Type := mkCorpusTokens {
  num_articles : Z;
  total_tokens : Z;
  avg_tokens : pynum;
  min_tokens : Z;
  max_tokens : Z;
  token_counts : list Z
}.

Section Tiktoken.

(** [tiktoken.get_encoding]: the encoder registered under a name (it
    raises for a name it does not know); an encoder maps a text to its
    token ids and raises on text it refuses. *)
Variable get_encoding : string -> result (string -> result (list Z)).

Definition get_tokenizer (encoding_name : string)
  : result (string -> result (list Z)) :=
  get_encoding encoding_name.

Definition count_tokens (text encoding_name : string) : result Z :=
  encoder ← get_tokenizer encoding_name;
  tokens ← encoder text;
  mret (Z.of_nat (length tokens)).

Definition analyze_article_tokens (article : Article) (encoding_name : string)
  : result ArticleTokens :=
  let title := dict_get (fields article) "title" "" in
  let description := dict_get (fields article) "description" "" in
  let full_text := title +:+ NL +:+ description in
  title_tokens ← count_tokens title encoding_name;
  description_tokens ← count_tokens description encoding_name;
  total_tokens ← count_tokens full_text encoding_name;
  mret (mkArticleTokens title title_tokens description_tokens
          total_tokens full_text).

(** The [for article in articles] loop, appending to [token_counts]. *)
Fixpoint corpus_loop (articles : list Article) (encoding_name : string)
    (token_counts : list Z) : result (list Z) :=
  match articles with
  | [] => Ok token_counts
  | article :: rest =>
      analysis ← analyze_article_tokens article encoding_name;
      corpus_loop rest encoding_name (token_counts ++ [at_total_tokens analysis])
  end.

Definition analyze_corpus_tokens (articles : list Article) (encoding_name : string)
  : result CorpusTokens :=
  token_counts ← corpus_loop articles encoding_name [];
  avg ← (if py_bool_list token_counts
         then q ← py_truediv (py_sum token_counts) (Z.of_nat (length token_counts));
              mret (PyF q)
         else mret (PyI 0));
  mn ← (if py_bool_list token_counts then py_min token_counts else mret 0%Z);
  mx ← (if py_bool_list token_counts then py_max token_counts else mret 0%Z);
  mret (mkCorpusTokens (Z.of_nat (length articles)) (py_sum token_counts)
          avg mn mx token_counts).

Definition needs_chunking (text : string) (max_tokens : Z) (encoding_name : string)
  : result (bool * Z) :=
  token_count ← count_tokens text encoding_name;
  mret (bool_decide (max_tokens < token_count)%Z, token_count).

End Tiktoken.

End Tokenization.

(** ** The chromadb collection

    The part of the chromadb client the retriever calls: [upsert], [count]
    and [query] on one collection.  Records are kept in insertion order.
    Vectors are kept as 32-bit floats.  An upsert under an id that exists
    updates the record where it stands: document and vector are replaced,
    metadata is written key by key.  The client validates its arguments
    before it touches the index: an empty list of vectors, an empty
    vector, an empty or repeated id list, lists of unequal length, a
    vector of another dimension than the collection's, and a number of
    results that is not positive are all refused; the messages of its
    own checks end in the name of the operation. *)
Module Chroma.

Record Entry : Type := mkEntry {
  e_id : string;
  e_document : string;
  e_embedding : list float;
  e_metadata : gmap string string
}.

Record Collection : Type := mkCollection {
  name : string;
  coll_metadata : gmap string string;
  records : list Entry
}.

(** The collections persisted under the directory a client is opened on. *)
Definition Client : Type := gmap string Collection.

Record QueryResult : Type := mkQueryResult {
  qr_ids : list (list string);
  qr_distances : list (list float);
  qr_metadatas : list (list (gmap string string));
  qr_documents : list (list string)
}.

Definition with_records (c : Collection) (l : list Entry) : Collection :=
  mkCollection (name c) (coll_metadata c) l.

Definition get_collection (client : Client) (name : string) : result Collection :=
  match client !! name with
  | Some c => Ok c
  | None => Raise (ValueError ("Collection " +:+ name +:+ " does not exist."))
  end.

Section Names.

(** The client's check of a collection name, which raises for a name it
    does not take. *)
Variable validate_collection_name : string -> result unit.

(** [client.create_collection(name=, metadata=)], called where the
    lookup of [name] has failed: the name is checked, and the new
    collection is empty. *)
Definition create_collection (name : string) (metadata : gmap string string)
  : result Collection :=
  validate_collection_name name;;
  mret (mkCollection name metadata []).

End Names.

(** A float as the collection keeps it: rounded to the nearest 32-bit
    float, ties to even, and to an infinity beyond the 32-bit range
    ([numpy.float32]). *)
Definition float32 (x : float) : float :=
  match Prim2SF x with
  | S754_finite s m e => SF2Prim (binary_round 24 128 s m e)
  | _ => x
  end.

(** [collection.count()] *)
Definition count (c : Collection) : Z := Z.of_nat (length (records c)).

(** The dimension of the index, fixed by the first record. *)
Definition dimension (c : Collection) : option nat :=
  match records c with
  | [] => None
  | e :: _ => Some (length (e_embedding e))
  end.

(** A stored record updated by a new one of its id: the document and
    the vector are replaced; each metadata key of the new record is
    written, keys it does not mention stay. *)
Definition update_record (old new : Entry) : Entry :=
  mkEntry (e_id new) (e_document new) (e_embedding new)
    (e_metadata new ∪ e_metadata old).


(** One record of an upsert: update the record of that id where it
    stands, or append. *)
Fixpoint upsert_record (e : Entry) (l : list Entry) : list Entry :=
  match l with
  | [] => [e]
  | x :: l' =>
      if decide (e_id x = e_id e) then update_record x e :: l'
      else x :: upsert_record e l'
  end.

(** The vectors of a call are made 32-bit arrays first; the list is
    told from a single vector by the first component of its first
    element, and indexing an empty first vector raises. *)
Definition normalize_embeddings (embeddings : list (list float))
  : result (list (list float)) :=
  match embeddings with
  | [] =>
      Raise (ValueError
               "Expected Embeddings to be non-empty list or numpy array, got [] in upsert.")
  | [] :: _ => Raise (IndexError "list index out of range in upsert.")
  | _ :: _ => Ok ((fun v : list float => float32 <$> v) <$> embeddings)
  end.

Definition validate_ids (ids : list string) : result unit :=
  if decide (ids = []) then
    Raise (ValueError "Expected IDs to be a non-empty list, got 0 IDs in upsert.")
  else if decide (NoDup ids) then Ok tt
  else Raise DuplicateIDError.

Definition validate_lengths (ids : list string) (embeddings : list (list float))
    (metadatas : list (gmap string string)) (documents : list string)
  : result unit :=
  if decide (length embeddings = length ids
             /\ length metadatas = length ids
             /\ length documents = length ids)
  then Ok tt
  else Raise (ValueError "Unequal lengths for fields in upsert.").

(** No vector may be empty; the message names the first empty one. *)
Definition validate_embeddings (embeddings : list (list float)) : result unit :=
  match list_find (fun v => v = []) embeddings with
  | None => Ok tt
  | Some (pos, _) =>
      Raise (ValueError
               ("Expected each embedding in the embeddings to be a 1-dimensional "
                +:+ "numpy array with at least 1 int/float value. Got a "
                +:+ "1-dimensional numpy array with no values at pos "
                +:+ str_of_nat pos +:+ " in upsert."))
  end.

(** Every vector must have the dimension of the index; an empty index
    takes the dimension of the first vector it is given. *)
Definition validate_dimension (c : Collection) (embeddings : list (list float))
  : result unit :=
  let target :=
    match dimension c with
    | Some d => Some d
    | None => length <$> head embeddings
    end in
  match target with
  | None => Ok tt
  | Some d =>
      if decide (Forall (fun v => length v = d) embeddings) then Ok tt
      else Raise InvalidDimensionException
  end.

(** The parallel lists of one call, as records. *)
Definition entries (ids : list string) (embeddings : list (list float))
    (metadatas : list (gmap string string)) (documents : list string)
  : list Entry :=
  zip_with (fun id_doc emb_meta =>
              mkEntry id_doc.1 id_doc.2 emb_meta.1 emb_meta.2)
    (zip ids documents) (zip embeddings metadatas).

(** The records of a call are upserted one after the other. *)
Definition upsert_all (l es : list Entry) : list Entry :=
  foldl (fun l e => upsert_record e l) l es.

(** [collection.upsert(documents=, embeddings=, metadatas=, ids=)] *)
Definition upsert (documents : list string) (embeddings : list (list float))
    (metadatas : list (gmap string string)) (ids : list string) (c : Collection)
  : result Collection :=
  vectors ← normalize_embeddings embeddings;
  validate_lengths ids vectors metadatas documents;;
  validate_ids ids;;
  validate_embeddings vectors;;
  validate_dimension c vectors;;
  mret (with_records c
          (upsert_all (records c) (entries ids vectors metadatas documents))).

(** [collection.get(ids=[i])]: the record stored under an id. *)
Definition find_id (i : string) (l : list Entry) : option Entry :=
  List.find (fun e => bool_decide (e_id e = i)) l.

Definition get (c : Collection) (i : string) : option Entry :=
  find_id i (records c).

Definition ids_of (c : Collection) : list string := e_id <$> records c.

(** What the client maintains: ids are unique, and every vector has the
    dimension of the index. *)
Definition well_formed (c : Collection) : Prop :=
  NoDup (ids_of c)
  /\ Forall (fun e => dimension c = Some (length (e_embedding e))) (records c).

(** Every stored record has its metadata keys among [keys]. *)
Definition metadata_within (keys : gset string) (l : list Entry) : Prop :=
  Forall (fun e => dom (e_metadata e) ⊆ keys) l.

(** A vector of dimension [d] is accepted: the index is empty or has
    that dimension. *)
Definition accepts (c : Collection) (d : nat) : Prop :=
  dimension c = None \/ dimension c = Some d.

Section Index.

(** The index's nearest-neighbour search: the stored records with their
    distance to the query vector, nearest first.  It runs inside hnswlib
    on 32-bit floats and is a parameter here. *)
Variable knn_search : list Entry -> list float -> list (Entry * float).

(** The collection's own embedding function, used for [query_texts]. *)
Variable embedding_function : string -> list float.

(** The search ranks every stored record, and only those. *)
Definition exhaustive : Prop :=
  forall (l : list Entry) (q : list float), (knn_search l q).*1 ≡ₚ l.

Definition validate_n_results (n_results : Z) : result unit :=
  if decide (n_results <= 0)%Z then
    Raise (TypeError ("Number of requested results " +:+ pretty n_results
                      +:+ ", cannot be negative, or zero. in query."))
  else Ok tt.

Definition validate_query_dimension (c : Collection) (queries : list (list float))
  : result unit :=
  match dimension c with
  | None => Ok tt
  | Some d =>
      if decide (Forall (fun v => length v = d) queries) then Ok tt
      else Raise InvalidDimensionException
  end.

(** The hits of one query vector: at most [n_results] of the ranking. *)
Definition nearest (c : Collection) (n_results : Z) (q : list float)
  : list (Entry * float) :=
  take (Z.to_nat n_results) (knn_search (records c) q).

(** The metadata of the hits for one query vector. *)
Definition hit_metadatas (c : Collection) (n_results : Z) (q : list float)
  : list (gmap string string) :=
  (fun x => e_metadata x.1) <$> nearest c n_results q.

(** [collection.query(query_embeddings=, n_results=)] and
    [collection.query(query_texts=, n_results=)]: one inner list of hits
    per query. *)
Definition query (query_embeddings : option (list (list float)))
    (query_texts : option (list string)) (n_results : Z) (c : Collection)
  : result QueryResult :=
  validate_n_results n_results;;
  queries ← match query_embeddings, query_texts with
            | Some qs, _ => Ok qs
            | None, Some ts => Ok (embedding_function <$> ts)
            | None, None =>
                Raise (ValueError "You must provide one of query_embeddings, query_texts")
            end;
  validate_query_dimension c queries;;
  let hits := nearest c n_results <$> queries in
  mret (mkQueryResult
          ((fun h => (fun x => e_id x.1) <$> h) <$> hits)
          ((fun h => snd <$> h) <$> hits)
          ((fun h => (fun x => e_metadata x.1) <$> h) <$> hits)
          ((fun h => (fun x => e_document x.1) <$> h) <$> hits)).

End Index.

End Chroma.

(** ** pandas: a frame built from a list of row dictionaries *)
Module Pandas.

Record DataFrame : Type := mkDataFrame {
  columns : list string;
  rows : list (list (string * string))
}.

(** The keys of one more row, in the order they are first seen. *)
Definition add_columns (seen : list string) (row : list (string * string))
  : list string :=
  foldl (fun acc kv => if decide (kv.1 ∈ acc) then acc else acc ++ [kv.1]) seen row.

(** [pd.DataFrame(data)] *)
Definition from_records (data : list (list (string * string))) : DataFrame :=
  mkDataFrame (foldl add_columns [] data) data.

(** [row[key]] where the key is present. *)
Fixpoint row_get (row : list (string * string)) (key : string) : option string :=
  match row with
  | [] => None
  | (k, v) :: row' => if decide (k = key) then Some v else row_get row' key
  end.

End Pandas.

(** ** src/embeddings.py *)
Module NewsEmbedder.

(** A loaded sentence-transformers model: [encode] on one text gives a
    vector, on a list of texts a vector per text. *)
Record SentenceTransformer : Type := mkSentenceTransformer {
  encode : string -> list float;
  encode_batch : list string -> list (list float);
  get_sentence_embedding_dimension : nat
}.

Record NewsEmbedder : Type := mkNewsEmbedder {
  model : SentenceTransformer;
  model_name : string
}.

(** [embeddings.shape] as printed. *)
Definition shape (embeddings : list (list float)) : string :=
  match embeddings with
  | [] => "(0,)"
  | v :: _ =>
      "(" +:+ str_of_nat (length embeddings) +:+ ", "
        +:+ str_of_nat (length v) +:+ ")"
  end.

Section Load.

(** [SentenceTransformer(model_name)]: loading the weights, which fails
    for a model that cannot be found. *)
Variable load_model : string -> result SentenceTransformer.

Definition __init__ {S : Type} (model_name : string) : M S NewsEmbedder :=
  print ("Loading embedding model: " +:+ model_name);;
  m ← lift (load_model model_name);
  print ("Model loaded successfully. Embedding dimension: "
         +:+ str_of_nat (get_sentence_embedding_dimension m));;
  mret (mkNewsEmbedder m model_name).

End Load.

Definition embed_text (self : NewsEmbedder) (text : string) : list float :=
  encode (model self) text.

Definition embed_articles {S : Type} (self : NewsEmbedder) (articles : list Article)
  : M S (list Article) :=
  print ("Generating embeddings for " +:+ str_of_nat (length articles)
         +:+ " articles...");;
  let texts := title_nl_description <$> articles in
  let embeddings := encode_batch (model self) texts in
  let embedded_articles :=
    zip_with (fun article embedding =>
                mkArticle (<["text" := title_nl_description article]> (fields article))
                  (Some embedding))
      articles embeddings in
  print ("Embeddings generated. Shape: " +:+ shape embeddings);;
  mret embedded_articles.

Definition get_embedding_dimension (self : NewsEmbedder) : nat :=
  get_sentence_embedding_dimension (model self).

End NewsEmbedder.

(** ** src/retrieval.py *)
Module NewsRetriever.

(** The retriever with the collection it is bound to; the retriever is
    the only writer of that collection here, so [collection] is the
    collection's current state. *)
Record NewsRetriever : Type := mkNewsRetriever {
  collection_name : string;
  persist_directory : string;
  collection : Chroma.Collection
}.

Definition with_collection (self : NewsRetriever) (c : Chroma.Collection)
  : NewsRetriever :=
  mkNewsRetriever (collection_name self) (persist_directory self) c.

Section Client.

(** What the constructor asks of the file system and of chromadb:
    [Path(p).mkdir(parents=True, exist_ok=True)], which raises where the
    directory cannot be made; [chromadb.PersistentClient(path=p)], which
    opens the collections persisted under [p] when the constructor runs,
    or raises; and the client's check of a collection name. *)
Variable mkdir : string -> result unit.
Variable PersistentClient : string -> result Chroma.Client.
Variable validate_collection_name : string -> result unit.

(** The constructor binds the collection of that name, creating it when
    the lookup raises, whatever the lookup raised. *)
Definition __init__ {S : Type} (collection_name persist_directory : string)
  : M S NewsRetriever :=
  lift (mkdir persist_directory);;
  print ("Initializing ChromaDB in: " +:+ persist_directory);;
  client ← lift (PersistentClient persist_directory);
  match Chroma.get_collection client collection_name with
  | Ok c =>
      print ("Loaded existing collection: " +:+ collection_name);;
      mret (mkNewsRetriever collection_name persist_directory c)
  | Raise _ =>
      c ← lift (Chroma.create_collection validate_collection_name collection_name
                  (py_dict [("hnsw:space", "cosine")]));
      print ("Created new collection: " +:+ collection_name);;
      mret (mkNewsRetriever collection_name persist_directory c)
  end.

End Client.

(** The metadata dictionary stored with one article. *)
Definition article_metadata (article : Article) : gmap string string :=
  py_dict [("title", dict_get (fields article) "title" "");
           ("description", dict_get (fields article) "description" "");
           ("link", dict_get (fields article) "link" "");
           ("published", dict_get (fields article) "published" "")].

(** The keys of that dictionary. *)
Definition metadata_keys : gset string :=
  {["title"; "description"; "link"; "published"]}.

(** [f"article_{idx}"] *)
Definition article_id (idx : nat) : string := "article_" +:+ str_of_nat idx.

Record Batch : Type := mkBatch {
  documents : list string;
  embeddings : list (list float);
  metadatas : list (gmap string string);
  ids : list string
}.

(** The [for idx, article in enumerate(articles)] loop, appending to the
    four lists; [article["embedding"]] raises on an article without one. *)
Fixpoint add_documents_loop (idx : nat) (articles : list Article) (acc : Batch)
  : result Batch :=
  match articles with
  | [] => Ok acc
  | article :: rest =>
      let text := dict_get (fields article) "text" (title_nl_description article) in
      embedding ← match embedding article with
                  | Some v => Ok v
                  | None => Raise (KeyError "embedding")
                  end;
      add_documents_loop (S idx) rest
        (mkBatch (documents acc ++ [text])
                 (embeddings acc ++ [embedding])
                 (metadatas acc ++ [article_metadata article])
                 (ids acc ++ [article_id idx]))
  end.

Definition add_documents (articles : list Article) : M NewsRetriever pyval :=
  print ("Adding " +:+ str_of_nat (length articles) +:+ " documents to collection...");;
  batch ← lift (add_documents_loop 0 articles (mkBatch [] [] [] []));
  self ← get_self;
  c ← lift (Chroma.upsert (documents batch) (embeddings batch) (metadatas batch)
              (ids batch) (collection self));
  put_self (with_collection self c);;
  print ("Successfully added " +:+ str_of_nat (length articles) +:+ " documents");;
  print ("Total documents in collection: " +:+ pretty (Chroma.count c));;
  mret PyNone.

(** The record [add_documents] stores for the article at position [idx],
    whose embedding is [v]: the vector is kept in 32 bits. *)
Definition stored_entry (idx : nat) (article : Article) (v : list float)
  : Chroma.Entry :=
  Chroma.mkEntry (article_id idx)
    (dict_get (fields article) "text" (title_nl_description article))
    (Chroma.float32 <$> v) (article_metadata article).


(** The records of a batch whose first article has position [idx]. *)
Fixpoint batch_entries (idx : nat) (articles : list Article) : list Chroma.Entry :=
  match articles with
  | [] => []
  | article :: rest =>
      stored_entry idx article (default [] (embedding article))
        :: batch_entries (S idx) rest
  end.

(** An article that carries an embedding of dimension [d]. *)
Definition embedded_with (d : nat) (article : Article) : Prop :=
  exists v, embedding article = Some v /\ length v = d.

(** The four lists of a batch have one entry per article. *)
Definition balanced (b : Batch) : Prop :=
  length (embeddings b) = length (ids b)
  /\ length (metadatas b) = length (ids b)
  /\ length (documents b) = length (ids b).

Definition batch_records (b : Batch) : list Chroma.Entry :=
  Chroma.entries (ids b) ((fun v : list float => Chroma.float32 <$> v) <$> embeddings b)
    (metadatas b)
    (documents b).

(** The lines a successful [add_documents] prints. *)
Definition add_documents_output (n : nat) (total : Z) : list string :=
  ["Adding " +:+ str_of_nat n +:+ " documents to collection...";
   "Successfully added " +:+ str_of_nat n +:+ " documents";
   "Total documents in collection: " +:+ pretty total].

(** A batch is accepted by a retriever: it is not empty, every article
    carries a vector of one dimension [d > 0], and the collection takes
    vectors of that dimension. *)
Definition ingestible (self : NewsRetriever) (d : nat) (articles : list Article) : Prop :=
  articles <> [] /\ 0 < d
  /\ Forall (embedded_with d) articles
  /\ Chroma.accepts (collection self) d.

(** The collection after a successful [add_documents]. *)
Definition ingested (self : NewsRetriever) (articles : list Article) : NewsRetriever :=
  with_collection self
    (Chroma.with_records (collection self)
       (Chroma.upsert_all (Chroma.records (collection self))
          (batch_entries 0 articles))).

Section Index.

Variable knn_search : list Chroma.Entry -> list float -> list (Chroma.Entry * float).
Variable embedding_function : string -> list float.

(** The vector a query text is searched by: the embedder's when one is
    passed, the collection's own embedding otherwise. *)
Definition query_vector (embedder : option NewsEmbedder.NewsEmbedder)
    (query_text : string) : list float :=
  match embedder with
  | Some embedder => NewsEmbedder.embed_text embedder query_text
  | None => embedding_function query_text
  end.

Definition query (query_text : string) (n_results : Z)
    (embedder : option NewsEmbedder.NewsEmbedder)
  : M NewsRetriever Chroma.QueryResult :=
  print (NL +:+ "Querying: '" +:+ query_text +:+ "'");;
  self ← get_self;
  match embedder with
  | Some embedder =>
      let query_embedding := NewsEmbedder.embed_text embedder query_text in
      lift (Chroma.query knn_search embedding_function
              (Some [query_embedding]) None n_results (collection self))
  | None =>
      lift (Chroma.query knn_search embedding_function
              None (Some [query_text]) n_results (collection self))
  end.

(** The fields of a result row, in the order of the row literal. *)
Definition row_fields : list string :=
  ["title"; "description"; "link"; "date_published"].

(** One row of the frame, from the metadata of one hit. *)
Definition row_of_metadata (metadata : gmap string string) : list (string * string) :=
  [("title", dict_get metadata "title" "");
   ("description", dict_get metadata "description" "");
   ("link", dict_get metadata "link" "");
   ("date_published", dict_get metadata "published" "")].

Definition query_to_dataframe (query_text : string) (n_results : Z)
    (embedder : option NewsEmbedder.NewsEmbedder)
  : M NewsRetriever Pandas.DataFrame :=
  results ← query query_text n_results embedder;
  let data :=
    match Chroma.qr_metadatas results with
    | [] => []
    | first :: _ => row_of_metadata <$> first
    end in
  mret (Pandas.from_records data).

End Index.

Definition get_collection_stats : M NewsRetriever (gmap string pyval) :=
  self ← get_self;
  let count := Chroma.count (collection self) in
  mret (py_dict [("collection_name", PyStr (collection_name self));
                 ("document_count", PyInt count);
                 ("persist_directory", PyStr (persist_directory self))]).

End NewsRetriever.

(** ** src/pipeline.py *)
Module NewsRetrievalPipeline.

(** A LangChain document. *)
Record Document : Type := mkDocument {
  page_content : string;
  metadata : gmap string string
}.

Section VectorStore.

(** LangChain's embedding wrapper and Chroma vector store; loading the
    model, building, opening and searching the store happen in that
    library. *)
Variable Embeddings : Type.
Variable HuggingFaceEmbeddings : string -> result Embeddings.
Variable VectorStore : Type.
Variable from_documents : list Document -> Embeddings -> string -> result VectorStore.
Variable load : string -> Embeddings -> result VectorStore.
Variable similarity_search : VectorStore -> string -> Z -> result (list Document).

Record NewsRetrievalPipeline : Type := mkNewsRetrievalPipeline {
  model_name : string;
  persist_directory : string;
  embeddings : Embeddings;
  vectorstore : option VectorStore
}.

Definition with_vectorstore (self : NewsRetrievalPipeline) (vs : VectorStore)
  : NewsRetrievalPipeline :=
  mkNewsRetrievalPipeline (model_name self) (persist_directory self)
    (embeddings self) (Some vs).

Definition __init__ {S : Type} (model_name persist_directory : string)
  : M S NewsRetrievalPipeline :=
  print "Initializing LangChain NewsRetrievalPipeline...";;
  print ("Loading embeddings model: " +:+ model_name);;
  emb ← lift (HuggingFaceEmbeddings model_name);
  print "Pipeline initialized successfully";;
  mret (mkNewsRetrievalPipeline model_name persist_directory emb None).

Definition load_articles_as_documents (articles : list Article)
  : M NewsRetrievalPipeline (list Document) :=
  print ("Converting " +:+ str_of_nat (length articles)
         +:+ " articles to LangChain Documents...");;
  let documents :=
    (fun article =>
       mkDocument (title_nl_description article)
         (NewsRetriever.article_metadata article)) <$> articles in
  print ("Created " +:+ str_of_nat (length documents) +:+ " documents");;
  mret documents.

Definition create_vectorstore (documents : list Document)
  : M NewsRetrievalPipeline VectorStore :=
  print ("Creating vector store with " +:+ str_of_nat (length documents)
         +:+ " documents...");;
  self ← get_self;
  vs ← lift (from_documents documents (embeddings self) (persist_directory self));
  put_self (with_vectorstore self vs);;
  print ("Vector store created and persisted to: " +:+ persist_directory self);;
  mret vs.

Definition load_vectorstore : M NewsRetrievalPipeline VectorStore :=
  self ← get_self;
  print ("Loading vector store from: " +:+ persist_directory self);;
  vs ← lift (load (persist_directory self) (embeddings self));
  put_self (with_vectorstore self vs);;
  print "Vector store loaded successfully";;
  mret vs.

Definition not_initialized_message : string :=
  "Vector store not initialized. Call create_vectorstore or load_vectorstore first.".

Definition query (query_text : string) (k : Z)
  : M NewsRetrievalPipeline (list Document) :=
  self ← get_self;
  match vectorstore self with
  | None => lift (Raise (ValueError not_initialized_message))
  | Some vs =>
      print (NL +:+ "Querying: '" +:+ query_text +:+ "'");;
      results ← lift (similarity_search vs query_text k);
      print ("Found " +:+ str_of_nat (length results) +:+ " results");;
      mret results
  end.

Definition query_to_dataframe (query_text : string) (k : Z)
  : M NewsRetrievalPipeline Pandas.DataFrame :=
  results ← query query_text k;
  let data :=
    (fun doc =>
       [("title", dict_get (metadata doc) "title" "");
        ("description", dict_get (metadata doc) "description" "");
        ("link", dict_get (metadata doc) "link" "");
        ("date_published", dict_get (metadata doc) "published" "")]) <$> results in
  mret (Pandas.from_records data).

Definition banner : string := foldr String.append "" (replicate 60 "=").

Definition run_pipeline (articles : list Article) (query_text : string) (k : Z)
  : M NewsRetrievalPipeline Pandas.DataFrame :=
  print (NL +:+ banner);;
  print "RUNNING COMPLETE LANGCHAIN PIPELINE";;
  print banner;;
  print (NL +:+ "[Step 1/4] Loading articles as documents...");;
  documents ← load_articles_as_documents articles;
  print (NL +:+ "[Step 2/4] Creating vector store with embeddings...");;
  create_vectorstore documents;;
  print (NL +:+ "[Step 3/4] Querying vector store...");;
  print (NL +:+ "[Step 4/4] Formatting results...");;
  df ← query_to_dataframe query_text k;
  print (NL +:+ banner);;
  print "PIPELINE COMPLETED SUCCESSFULLY";;
  print banner;;
  mret df.

End VectorStore.

End NewsRetrievalPipeline.

(** ** Sample data

    Two articles with two-dimensional vectors, a retriever on a new
    collection, and stand-ins for the external parts: a search that scans
    the records in stored order, a model that embeds every text alike,
    and a vector store that is the list of its documents. *)
Module Sample.

Definition doc_economia : Article :=
  mkArticle
    (py_dict [("title", "Economia crece 3%");
              ("description", "El PBI subio");
              ("link", "https://x/1");
              ("published", "2025-10-16")])
    (Some [0.5%float; 0.25%float]).

Definition doc_futbol : Article :=
  mkArticle
    (py_dict [("title", "Futbol: final hoy");
              ("description", "El equipo juega esta noche");
              ("link", "https://x/2");
              ("published", "2025-10-16")])
    (Some [0.125%float; 1%float]).

Definition retriever : NewsRetriever.NewsRetriever :=
  NewsRetriever.mkNewsRetriever "rpp_news" "./data/chromadb"
    (Chroma.mkCollection "rpp_news" (py_dict [("hnsw:space", "cosine")]) []).

(** The retriever after [doc_economia] was ingested. *)
Definition retriever_one : NewsRetriever.NewsRetriever :=
  NewsRetriever.ingested retriever [doc_economia].



Definition scan_search (l : list Chroma.Entry) (q : list float)
  : list (Chroma.Entry * float) :=
  (fun e => (e, 0%float)) <$> l.

Definition flat_embedding (text : string) : list float := [1%float; 0%float].

Definition embedder : NewsEmbedder.NewsEmbedder :=
  NewsEmbedder.mkNewsEmbedder
    (NewsEmbedder.mkSentenceTransformer flat_embedding (fmap flat_embedding) 2)
    "sentence-transformers/all-MiniLM-L6-v2".


Definition list_search (vs : list NewsRetrievalPipeline.Document) (query_text : string)
    (k : Z) : result (list NewsRetrievalPipeline.Document) :=
  Ok (take (Z.to_nat k) vs).

Definition pipeline
  : NewsRetrievalPipeline.NewsRetrievalPipeline unit (list NewsRetrievalPipeline.Document) :=
  NewsRetrievalPipeline.mkNewsRetrievalPipeline unit (list NewsRetrievalPipeline.Document)
    "sentence-transformers/all-MiniLM-L6-v2" "./data/langchain_chromadb" tt None.

(** A tokenizer that knows one encoding and gives one token per character. *)
Definition get_encoding (encoding_name : string) : result (string -> result (list Z)) :=
  if decide (encoding_name = "cl100k_base")
  then Ok (fun text => Ok ((fun _ => 0%Z) <$> String.list_ascii_of_string text))
  else Raise (ValueError ("Unknown encoding " +:+ encoding_name)).

End Sample.

(** ** Vocabulary of the statements *)

(** The total of an article under an encoding, when its analysis returns. *)
Definition article_total (get_encoding : string -> result (string -> result (list Z)))
    (enc : string) (article : Article) (n : Z) : Prop :=
  exists t, Tokenization.analyze_article_tokens get_encoding article enc = Ok t
            /\ Tokenization.at_total_tokens t = n.

(** Token counts whose average is not too large for a float. *)
Definition fits (counts : list Z) : Prop :=
  ~ truediv_overflows (py_sum counts) (Z.of_nat (length counts)).

(** The row an article comes back as: its four fields, absent ones
    empty, the publication date under [date_published]. *)
Definition article_row (article : Article) : list (string * string) :=
  [("title", dict_get (fields article) "title" "");
   ("description", dict_get (fields article) "description" "");
   ("link", dict_get (fields article) "link" "");
   ("date_published", dict_get (fields article) "published" "")].


(** The LangChain document the pipeline makes of an article. *)
Definition article_document (article : Article) : NewsRetrievalPipeline.Document :=
  NewsRetrievalPipeline.mkDocument (title_nl_description article)
    (NewsRetriever.article_metadata article).

(** The row the pipeline makes of a document. *)
Definition document_row (doc : NewsRetrievalPipeline.Document) : list (string * string) :=
  NewsRetriever.row_of_metadata (NewsRetrievalPipeline.metadata doc).

(** The sample pipeline with the documents of the two sample articles as
    its vector store. *)
Definition sample_pipeline_bound
  : NewsRetrievalPipeline.NewsRetrievalPipeline unit (list NewsRetrievalPipeline.Document) :=
  NewsRetrievalPipeline.with_vectorstore _ _ Sample.pipeline
    [article_document Sample.doc_economia; article_document Sample.doc_futbol].

(** * Properties *)

(** ** Token statistics *)
Section TokenStatistics.

Variable get_encoding : string -> result (string -> result (list Z)).

Abbreviation count_tokens := (Tokenization.count_tokens get_encoding).
Abbreviation needs_chunking := (Tokenization.needs_chunking get_encoding).
Abbreviation analyze_article_tokens := (Tokenization.analyze_article_tokens get_encoding).
Abbreviation corpus_loop := (Tokenization.corpus_loop get_encoding).
Abbreviation analyze_corpus_tokens := (Tokenization.analyze_corpus_tokens get_encoding).

Lemma count_tokens_nonneg (text enc : string) (n : Z) :
  count_tokens text enc = Ok n -> (0 <= n)%Z.
Proof.
  unfold Tokenization.count_tokens, Tokenization.get_tokenizer.
  destruct (get_encoding enc) as [encoder|e]; [|discriminate].
  cbn [mbind result_bind]. destruct (encoder text) as [tokens|e]; [|discriminate].
  intros [= <-]. lia.
Qed.

Lemma count_tokens_unknown (text enc : string) (e : exn) :
  get_encoding enc = Raise e -> count_tokens text enc = Raise e.
Proof.
  intros He. unfold Tokenization.count_tokens, Tokenization.get_tokenizer.
  by rewrite He.
Qed.

Abbreviation article_total := (article_total get_encoding).

Lemma article_total_nonneg (enc : string) (article : Article) (n : Z) :
  article_total enc article n -> (0 <= n)%Z.
Proof.
  unfold article_total. intros (t & Ht & Hn). subst n.
  unfold Tokenization.analyze_article_tokens in Ht. cbv zeta in Ht.
  destruct (count_tokens (dict_get (fields article) "title" "") enc) as [n1|];
    cbn [mbind result_bind] in Ht; [|discriminate].
  destruct (count_tokens (dict_get (fields article) "description" "") enc) as [n2|];
    cbn [mbind result_bind] in Ht; [|discriminate].
  destruct (count_tokens _ enc) as [n3|] eqn:H3; cbn [mbind result_bind] in Ht;
    [|discriminate].
  injection Ht as <-. cbn [Tokenization.at_total_tokens].
  by apply count_tokens_nonneg in H3.
Qed.

(** The loop, seen from its result: the accumulator grows by the totals
    of the articles, in order. *)
Lemma corpus_loop_counts (articles : list Article) (enc : string) (acc counts : list Z) :
  corpus_loop articles enc acc = Ok counts ->
  exists new, counts = acc ++ new /\ Forall2 (article_total enc) articles new.
Proof.
  revert acc. induction articles as [|a rest IH]; intros acc Hrun.
  - injection Hrun as <-. exists []. by rewrite app_nil_r.
  - cbn [Tokenization.corpus_loop] in Hrun.
    destruct (analyze_article_tokens a enc) as [t|e] eqn:Ha; [|discriminate].
    cbn [mbind result_bind] in Hrun.
    destruct (IH _ Hrun) as (new & -> & Hnew).
    exists (Tokenization.at_total_tokens t :: new). split.
    + by rewrite <-app_assoc.
    + constructor; [by exists t | done].
Qed.

Lemma corpus_loop_complete (articles : list Article) (enc : string) (acc new : list Z) :
  Forall2 (article_total enc) articles new ->
  corpus_loop articles enc acc = Ok (acc ++ new).
Proof.
  intros Hall. revert acc.
  induction Hall as [|a n rest new Ha _ IH]; intros acc.
  - by rewrite app_nil_r.
  - destruct Ha as (t & Ht & <-).
    cbn [Tokenization.corpus_loop]. rewrite Ht. cbn [mbind result_bind].
    rewrite IH, <-app_assoc. done.
Qed.

Lemma foldl_min_le (x : Z) (l : list Z) :
  (foldl Z.min x l <= x)%Z /\ Forall (fun n => (foldl Z.min x l <= n)%Z) l
  /\ foldl Z.min x l ∈ x :: l.
Proof.
  revert x. induction l as [|y l IH]; intros x; cbn [foldl].
  - split; [lia|]. split; [constructor | apply elem_of_cons; by left].
  - destruct (IH (Z.min x y)) as (Hle & Hall & Hin). split; [lia|]. split.
    + apply Forall_cons. split; [lia | done].
    + apply elem_of_cons in Hin as [Heq|Hin].
      * rewrite Heq. destruct (Z.min_spec x y) as [[_ ->]|[_ ->]].
        -- apply elem_of_cons. by left.
        -- apply elem_of_cons. right. apply elem_of_cons. by left.
      * apply elem_of_cons. right. apply elem_of_cons. by right.
Qed.

Lemma foldl_max_ge (x : Z) (l : list Z) :
  (x <= foldl Z.max x l)%Z /\ Forall (fun n => (n <= foldl Z.max x l)%Z) l
  /\ foldl Z.max x l ∈ x :: l.
Proof.
  revert x. induction l as [|y l IH]; intros x; cbn [foldl].
  - split; [lia|]. split; [constructor | apply elem_of_cons; by left].
  - destruct (IH (Z.max x y)) as (Hle & Hall & Hin). split; [lia|]. split.
    + apply Forall_cons. split; [lia | done].
    + apply elem_of_cons in Hin as [Heq|Hin].
      * rewrite Heq. destruct (Z.max_spec x y) as [[_ ->]|[_ ->]].
        -- apply elem_of_cons. right. apply elem_of_cons. by left.
        -- apply elem_of_cons. by left.
      * apply elem_of_cons. right. apply elem_of_cons. by right.
Qed.

Lemma py_sum_from (x : Z) (l : list Z) : foldl Z.add x l = (x + py_sum l)%Z.
Proof.
  unfold py_sum. revert x. induction l as [|y l IH]; intros x; cbn [foldl]; [lia|].
  rewrite (IH (x + y)%Z), (IH (0 + y)%Z). lia.
Qed.

Lemma py_sum_cons (x : Z) (l : list Z) : py_sum (x :: l) = (x + py_sum l)%Z.
Proof. unfold py_sum at 1. cbn [foldl]. apply py_sum_from. Qed.

Lemma py_sum_app (l1 l2 : list Z) : py_sum (l1 ++ l2) = (py_sum l1 + py_sum l2)%Z.
Proof.
  induction l1 as [|x l1 IH]; [done|].
  rewrite <-app_comm_cons, !py_sum_cons, IH. lia.
Qed.

Lemma py_sum_bounds (lo hi : Z) (l : list Z) :
  Forall (fun n => (lo <= n <= hi)%Z) l ->
  (Z.of_nat (length l) * lo <= py_sum l <= Z.of_nat (length l) * hi)%Z.
Proof.
  induction 1 as [|x l Hx _ IH]; [done|].
  rewrite py_sum_cons. cbn [length]. lia.
Qed.

Lemma py_sum_nonneg (l : list Z) : Forall (fun n => (0 <= n)%Z) l -> (0 <= py_sum l)%Z.
Proof.
  induction 1 as [|x l Hx _ IH]; [done|]. rewrite py_sum_cons. lia.
Qed.

Lemma article_totals_nonneg (enc : string) (articles : list Article) (counts : list Z) :
  Forall2 (article_total enc) articles counts -> Forall (fun n => (0 <= n)%Z) counts.
Proof.
  induction 1 as [|a n rest new Ha _ IH]; constructor; [|done].
  by apply (article_total_nonneg enc a).
Qed.

(** Counts that are lengths of lists, below [2 ^ 63] each, have an
    average that is far from the largest float. *)
Lemma fits_bounded (counts : list Z) :
  counts <> [] ->
  Forall (fun n => (0 <= n < 2 ^ 63)%Z) counts ->
  fits counts.
Proof.
  intros Hne Hall. unfold fits, truediv_overflows.
  assert (Forall (fun n => (0 <= n <= 2 ^ 63 - 1)%Z) counts) as Hall'.
  { eapply Forall_impl; [exact Hall|]. cbn. intros n Hn. lia. }
  pose proof (py_sum_bounds _ _ _ Hall') as Hsum.
  assert (0 < Z.of_nat (length counts))%Z as Hlen.
  { destruct counts; [done | cbn [length]; lia]. }
  assert (2 ^ 63 <= (2 ^ 54 - 1) * 2 ^ 970)%Z as Hbig by (by vm_compute).
  set (B := ((2 ^ 54 - 1) * 2 ^ 970)%Z) in *. clearbody B.
  set (T := (2 ^ 63)%Z) in *. clearbody T.
  rewrite !Z.abs_eq by lia. nia.
Qed.

(** Two lists of non-negative counts that fit, or are empty, fit when
    appended: the average of the whole lies between the two averages. *)
Lemma fits_app (l1 l2 : list Z) :
  Forall (fun n => (0 <= n)%Z) l1 -> Forall (fun n => (0 <= n)%Z) l2 ->
  l1 = [] \/ fits l1 -> l2 = [] \/ fits l2 ->
  l1 ++ l2 = [] \/ fits (l1 ++ l2).
Proof.
  intros Hp1 Hp2 [->|H1] [->|H2].
  - by left.
  - right. exact H2.
  - right. rewrite app_nil_r. exact H1.
  - right. pose proof (py_sum_nonneg _ Hp1). pose proof (py_sum_nonneg _ Hp2).
    revert H1 H2. unfold fits, truediv_overflows.
    rewrite py_sum_app, length_app, Nat2Z.inj_add.
    set (B := ((2 ^ 54 - 1) * 2 ^ 970)%Z). clearbody B.
    rewrite !Z.abs_eq by lia. intros H1 H2. nia.
Qed.

(** The analysis, once the loop has returned its counts: the statistics
    of the counts, where the only further failure is an average too
    large for a float. *)
Lemma analyze_corpus_tokens_run (articles : list Article) (enc : string)
    (counts : list Z) :
  corpus_loop articles enc [] = Ok counts ->
  analyze_corpus_tokens articles enc
  = match counts with
    | [] => Ok (Tokenization.mkCorpusTokens (Z.of_nat (length articles)) 0 (PyI 0) 0 0 [])
    | c :: cs =>
        if decide (truediv_overflows (py_sum counts) (Z.of_nat (length counts)))
        then Raise (OverflowError "integer division result too large for a float")
        else Ok (Tokenization.mkCorpusTokens (Z.of_nat (length articles))
                   (py_sum counts)
                   (PyF (round_quotient (py_sum counts) (Z.of_nat (length counts))))
                   (foldl Z.min c cs) (foldl Z.max c cs) counts)
    end.
Proof.
  intros Hloop. unfold Tokenization.analyze_corpus_tokens. rewrite Hloop.
  cbn [mbind result_bind]. destruct counts as [|c cs]; [reflexivity|].
  cbn [py_bool_list]. unfold py_truediv.
  rewrite decide_False by (cbn [length]; lia).
  by destruct (decide (truediv_overflows _ _)).
Qed.

(** A returned analysis, read back: its counts are those of the loop and
    their average fits. *)
Lemma analyze_corpus_tokens_inv (articles : list Article) (enc : string)
    (r : Tokenization.CorpusTokens) :
  analyze_corpus_tokens articles enc = Ok r ->
  corpus_loop articles enc [] = Ok (Tokenization.token_counts r)
  /\ Forall2 (article_total enc) articles (Tokenization.token_counts r)
  /\ Tokenization.num_articles r = Z.of_nat (length articles)
  /\ Tokenization.total_tokens r = py_sum (Tokenization.token_counts r)
  /\ (Tokenization.token_counts r = [] \/ fits (Tokenization.token_counts r))
  /\ match Tokenization.token_counts r with
     | [] => Tokenization.min_tokens r = 0%Z /\ Tokenization.max_tokens r = 0%Z
     | c :: cs =>
         Tokenization.min_tokens r = foldl Z.min c cs
         /\ Tokenization.max_tokens r = foldl Z.max c cs
     end.
Proof.
  intros Hrun.
  destruct (corpus_loop articles enc []) as [counts|e] eqn:Hloop.
  - rewrite (analyze_corpus_tokens_run _ _ _ Hloop) in Hrun.
    apply corpus_loop_counts in Hloop as Hall. destruct Hall as (new & Hnew & Hall).
    cbn [app] in Hnew. subst new.
    destruct counts as [|c cs].
    + injection Hrun as <-. split_and!; try done. by left.
    + destruct (decide (truediv_overflows _ _)) as [|Hfits]; [discriminate|].
      injection Hrun as <-. split_and!; try done. by right.
  - unfold Tokenization.analyze_corpus_tokens in Hrun. rewrite Hloop in Hrun.
    discriminate.
Qed.

(** Once the loop has returned counts that fit, so does the analysis,
    with the counts of the loop. *)
Lemma analyze_corpus_tokens_of_counts (articles : list Article) (enc : string)
    (counts : list Z) :
  corpus_loop articles enc [] = Ok counts ->
  counts = [] \/ fits counts ->
  exists r, analyze_corpus_tokens articles enc = Ok r
            /\ Tokenization.token_counts r = counts.
Proof.
  intros Hloop Hfits. rewrite (analyze_corpus_tokens_run _ _ _ Hloop).
  destruct counts as [|c cs]; [by eexists|].
  destruct Hfits as [|Hfits]; [done|].
  rewrite decide_False by exact Hfits. by eexists.
Qed.

(** C10 (as the code has it): [analyze_corpus_tokens] returns whenever
    the analysis of each article returns, the counts being lengths of
    lists, below [2 ^ 63]; for the empty list that is always, whatever
    the encoding.  The result has one count per article, in order, their
    number and their sum; on the empty list the average, the minimum and
    the maximum are 0, and the division and [min]/[max] are evaluated
    only for a non-empty list of counts, where they are defined: the
    average is the correctly rounded quotient. *)
Theorem analyze_corpus_tokens_total (articles : list Article) (enc : string)
    (counts : list Z) :
  Forall2 (article_total enc) articles counts ->
  Forall (fun n => (n < 2 ^ 63)%Z) counts ->
  exists r,
    analyze_corpus_tokens articles enc = Ok r
    /\ Tokenization.num_articles r = Z.of_nat (length articles)
    /\ Tokenization.token_counts r = counts
    /\ Tokenization.total_tokens r = py_sum counts
    /\ match articles with
       | [] =>
           r = Tokenization.mkCorpusTokens 0 0 (PyI 0) 0 0 []
       | _ :: _ =>
           py_truediv (py_sum counts) (Z.of_nat (length articles))
           = Ok (round_quotient (py_sum counts) (Z.of_nat (length articles)))
           /\ Tokenization.avg_tokens r
              = PyF (round_quotient (py_sum counts) (Z.of_nat (length articles)))
           /\ py_min counts = Ok (Tokenization.min_tokens r)
           /\ py_max counts = Ok (Tokenization.max_tokens r)
       end.
Proof.
  intros Hall Hsmall.
  pose proof (corpus_loop_complete _ enc [] _ Hall) as Hloop. cbn [app] in Hloop.
  rewrite (analyze_corpus_tokens_run _ _ _ Hloop).
  pose proof (Forall2_length _ _ _ Hall) as Hlen.
  destruct Hall as [|a n rest new Ha Hall]; [by eexists|].
  assert (fits (n :: new)) as Hfits.
  { apply fits_bounded; [done|].
    pose proof (article_totals_nonneg enc (a :: rest) (n :: new)
                  ltac:(by constructor)) as Hpos.
    rewrite Forall_forall in Hpos, Hsmall. apply Forall_forall. intros k Hk.
    split; [by apply Hpos | by apply Hsmall]. }
  rewrite decide_False by exact Hfits. eexists. split; [reflexivity|].
  cbn [Tokenization.num_articles Tokenization.token_counts Tokenization.total_tokens
       Tokenization.avg_tokens Tokenization.min_tokens Tokenization.max_tokens].
  rewrite Hlen. split_and!; try reflexivity.
  unfold py_truediv. rewrite decide_False by (cbn [length]; lia).
  by rewrite decide_False by exact Hfits.
Qed.

(** The statistics of a corpus are consistent with one another: the
    counts are the totals of the articles, in order, none negative; the
    minimum and the maximum are counts of the list and bound every count;
    and the total lies between [num_articles] times the minimum and
    [num_articles] times the maximum. *)
Theorem analyze_corpus_tokens_bounds (articles : list Article) (enc : string)
    (r : Tokenization.CorpusTokens) :
  analyze_corpus_tokens articles enc = Ok r ->
  Forall2 (article_total enc) articles (Tokenization.token_counts r)
  /\ Forall (fun n => (0 <= n)%Z
                      /\ (Tokenization.min_tokens r <= n <= Tokenization.max_tokens r)%Z)
       (Tokenization.token_counts r)
  /\ match articles with
     | [] => True
     | _ :: _ =>
         Tokenization.min_tokens r ∈ Tokenization.token_counts r
         /\ Tokenization.max_tokens r ∈ Tokenization.token_counts r
     end
  /\ (Tokenization.num_articles r * Tokenization.min_tokens r
      <= Tokenization.total_tokens r
      <= Tokenization.num_articles r * Tokenization.max_tokens r)%Z.
Proof.
  intros Hrun.
  destruct (analyze_corpus_tokens_inv _ _ _ Hrun) as (_ & Hall & Hn & Ht & _ & Hmm).
  pose proof (article_totals_nonneg _ _ _ Hall) as Hpos.
  pose proof (Forall2_length _ _ _ Hall) as Hlen.
  rewrite Hn, Ht. split; [exact Hall|].
  destruct (Tokenization.token_counts r) as [|n new].
  - destruct articles; [|done]. destruct Hmm as [-> ->].
    split; [constructor|]. split; [done|]. cbn. lia.
  - destruct Hmm as [-> ->].
    destruct (foldl_min_le n new) as (Hmin & Hmins & Hminin).
    destruct (foldl_max_ge n new) as (Hmax & Hmaxs & Hmaxin).
    assert (Forall (fun k => (foldl Z.min n new <= k <= foldl Z.max n new)%Z) (n :: new))
      as Hbounds.
    { apply Forall_cons. split; [lia|].
      apply Forall_forall. intros k Hk. rewrite Forall_forall in Hmins, Hmaxs.
      split; [by apply Hmins | by apply Hmaxs]. }
    split.
    + apply Forall_forall. intros k Hk. rewrite Forall_forall in Hpos, Hbounds.
      split; [by apply Hpos | by apply Hbounds].
    + destruct articles; [done|]. split; [done|].
      pose proof (py_sum_bounds _ _ _ Hbounds) as Hsum.
      rewrite Hlen. lia.
Qed.

(** Analysing two lists one after the other is analysing their
    concatenation: the counts are appended, the totals and the numbers of
    articles add up. *)
Theorem analyze_corpus_tokens_app (articles1 articles2 : list Article) (enc : string)
    (r1 r2 : Tokenization.CorpusTokens) :
  analyze_corpus_tokens articles1 enc = Ok r1 ->
  analyze_corpus_tokens articles2 enc = Ok r2 ->
  exists r,
    analyze_corpus_tokens (articles1 ++ articles2) enc = Ok r
    /\ Tokenization.token_counts r
       = Tokenization.token_counts r1 ++ Tokenization.token_counts r2
    /\ Tokenization.total_tokens r
       = (Tokenization.total_tokens r1 + Tokenization.total_tokens r2)%Z
    /\ Tokenization.num_articles r
       = (Tokenization.num_articles r1 + Tokenization.num_articles r2)%Z.
Proof.
  intros H1 H2.
  destruct (analyze_corpus_tokens_inv _ _ _ H1) as (_ & Hall1 & Hn1 & Ht1 & Hf1 & _).
  destruct (analyze_corpus_tokens_inv _ _ _ H2) as (_ & Hall2 & Hn2 & Ht2 & Hf2 & _).
  assert (corpus_loop (articles1 ++ articles2) enc []
          = Ok (Tokenization.token_counts r1 ++ Tokenization.token_counts r2)) as Hloop.
  { apply (corpus_loop_complete _ enc []). by apply Forall2_app. }
  pose proof (fits_app _ _ (article_totals_nonneg _ _ _ Hall1)
                (article_totals_nonneg _ _ _ Hall2) Hf1 Hf2) as Hf.
  destruct (analyze_corpus_tokens_of_counts _ _ _ Hloop Hf) as (r & Hr & Hc).
  exists r. split; [exact Hr|]. split; [exact Hc|].
  destruct (analyze_corpus_tokens_inv _ _ _ Hr) as (_ & _ & Hn & Ht & _).
  rewrite Ht, Hc, py_sum_app, Ht1, Ht2. split; [done|].
  rewrite Hn, length_app, Hn1, Hn2. lia.
Qed.

(** [needs_chunking] against the count: the count is never negative, the
    flag says whether it exceeds the limit, and so a negative limit flags
    every text, the empty one included. *)
Theorem needs_chunking_threshold (text enc : string) (n : Z) :
  count_tokens text enc = Ok n ->
  (0 <= n)%Z
  /\ (forall m, needs_chunking text m enc = Ok (bool_decide (m < n)%Z, n))
  /\ (forall m, (m < 0)%Z -> needs_chunking text m enc = Ok (true, n))
  /\ (forall m, (n <= m)%Z -> needs_chunking text m enc = Ok (false, n)).
Proof.
  intros Hn. pose proof (count_tokens_nonneg _ _ _ Hn) as Hpos.
  assert (forall m, needs_chunking text m enc = Ok (bool_decide (m < n)%Z, n)) as Hm.
  { intros m. unfold Tokenization.needs_chunking. by rewrite Hn. }
  split; [exact Hpos|]. split; [exact Hm|]. split.
  - intros m Hneg. rewrite Hm, bool_decide_eq_true_2 by lia. done.
  - intros m Hle. rewrite Hm, bool_decide_eq_false_2 by lia. done.
Qed.

(** An encoding name the tokenizer does not know: every analysis of an
    article, every chunking test and every analysis of a non-empty list
    raises the tokenizer's error; only the empty list, for which the name
    is never looked up, still gets its all-zero statistics. *)
Theorem unknown_encoding_raises (enc : string) (e : exn) (articles : list Article)
    (article : Article) (text : string) (m : Z) :
  get_encoding enc = Raise e ->
  articles <> [] ->
  analyze_article_tokens article enc = Raise e
  /\ needs_chunking text m enc = Raise e
  /\ analyze_corpus_tokens articles enc = Raise e
  /\ analyze_corpus_tokens [] enc = Ok (Tokenization.mkCorpusTokens 0 0 (PyI 0) 0 0 []).
Proof.
  intros He Hne.
  assert (forall a, analyze_article_tokens a enc = Raise e) as Ha.
  { intros a. unfold Tokenization.analyze_article_tokens. cbv zeta.
    rewrite !(count_tokens_unknown _ _ e He). reflexivity. }
  split; [apply Ha|]. split.
  - unfold Tokenization.needs_chunking. rewrite !(count_tokens_unknown _ _ e He). reflexivity.
  - split; [|reflexivity]. destruct articles as [|a rest]; [done|].
    unfold Tokenization.analyze_corpus_tokens. cbn [Tokenization.corpus_loop].
    rewrite Ha. reflexivity.
Qed.

End TokenStatistics.

(** ** The text that is counted *)
Section CountedText.

Variable get_encoding : string -> result (string -> result (list Z)).

(** The tokens an analysis counts as the total of an article are those
    of the very text that [embed_articles] embeds and [add_documents]
    stores for it, title and description joined by a line feed; the title
    and the description are counted on their own, an absent one as the
    empty string. *)
Theorem analyze_article_tokens_counts_embedded_text (article : Article) (enc : string)
    (t : Tokenization.ArticleTokens) :
  Tokenization.analyze_article_tokens get_encoding article enc = Ok t ->
  Tokenization.full_text t = title_nl_description article
  /\ Tokenization.count_tokens get_encoding (title_nl_description article) enc
     = Ok (Tokenization.at_total_tokens t)
  /\ Tokenization.count_tokens get_encoding (dict_get (fields article) "title" "") enc
     = Ok (Tokenization.title_tokens t)
  /\ Tokenization.count_tokens get_encoding
       (dict_get (fields article) "description" "") enc
     = Ok (Tokenization.description_tokens t)
  /\ Tokenization.at_title t = dict_get (fields article) "title" "".
Proof.
  unfold Tokenization.analyze_article_tokens. cbv zeta. intros Hrun.
  fold (title_nl_description article) in Hrun.
  destruct (Tokenization.count_tokens get_encoding (dict_get (fields article) "title" "") enc)
    as [n1|]; cbn [mbind result_bind] in Hrun; [|discriminate].
  destruct (Tokenization.count_tokens get_encoding
              (dict_get (fields article) "description" "") enc)
    as [n2|]; cbn [mbind result_bind] in Hrun; [|discriminate].
  destruct (Tokenization.count_tokens get_encoding (title_nl_description article) enc)
    as [n3|]; cbn [mbind result_bind] in Hrun; [|discriminate].
  injection Hrun as <-. by split_and!.
Qed.

End CountedText.

(** ** Upsert on the collection *)
Section ChromaFacts.

Implicit Types (e : Chroma.Entry) (l es : list Chroma.Entry) (i : string).
Implicit Types (keys : gset string).

(** Writing every key of a dictionary over one with no other keys gives
    the first. *)
Lemma union_covered (m m' : gmap string string) :
  dom m' ⊆ dom m -> m ∪ m' = m.
Proof.
  intros Hsub. apply map_eq. intros k.
  destruct (m !! k) as [v|] eqn:Hk.
  - by apply lookup_union_Some_l.
  - rewrite lookup_union_r by done. apply not_elem_of_dom.
    intros Hin. apply Hsub in Hin. by apply not_elem_of_dom in Hk.
Qed.

(** An update by a record that mentions every key of the old one is a
    replacement. *)
Lemma update_record_covered (x e : Chroma.Entry) :
  dom (Chroma.e_metadata x) ⊆ dom (Chroma.e_metadata e) ->
  Chroma.update_record x e = e.
Proof.
  intros Hsub. unfold Chroma.update_record. rewrite union_covered by done.
  by destruct e.
Qed.

Lemma upsert_record_ids e l :
  Chroma.e_id <$> Chroma.upsert_record e l
  = if decide (Chroma.e_id e ∈ Chroma.e_id <$> l)
    then Chroma.e_id <$> l
    else (Chroma.e_id <$> l) ++ [Chroma.e_id e].
Proof.
  induction l as [|x l IH]; cbn [Chroma.upsert_record].
  - case_decide as Hin; [by apply elem_of_nil in Hin | done].
  - rewrite fmap_cons.
    destruct (decide (Chroma.e_id x = Chroma.e_id e)) as [Heq|Hne].
    + rewrite decide_True by (rewrite Heq; apply elem_of_cons; by left).
      rewrite fmap_cons. cbn [Chroma.update_record Chroma.e_id]. by rewrite Heq.
    + rewrite fmap_cons, IH.
      destruct (decide (Chroma.e_id e ∈ Chroma.e_id <$> l)) as [Hin|Hnin].
      * rewrite decide_True; [done | apply elem_of_cons; by right].
      * rewrite decide_False; [done|].
        intros [?|?]%elem_of_cons; [congruence | contradiction].
Qed.

Lemma upsert_record_NoDup e l :
  NoDup (Chroma.e_id <$> l) -> NoDup (Chroma.e_id <$> Chroma.upsert_record e l).
Proof.
  intros Hnd. rewrite upsert_record_ids. case_decide; [done|].
  apply NoDup_app. split_and!; [done | | apply NoDup_singleton].
  intros x Hx ->%list_elem_of_singleton. contradiction.
Qed.

(** After an upsert the id holds the new record, provided the new record
    mentions every metadata key the stored ones have. *)
Lemma find_id_upsert_record_eq e l :
  Chroma.metadata_within (dom (Chroma.e_metadata e)) l ->
  Chroma.find_id (Chroma.e_id e) (Chroma.upsert_record e l) = Some e.
Proof.
  unfold Chroma.find_id. induction 1 as [|x l Hx Hl IH]; cbn [Chroma.upsert_record find].
  - by rewrite bool_decide_eq_true_2.
  - destruct (decide (Chroma.e_id x = Chroma.e_id e)) as [Heq|Hne]; cbn [find].
    + rewrite update_record_covered by done. by rewrite bool_decide_eq_true_2.
    + by rewrite bool_decide_eq_false_2.
Qed.

Lemma find_id_upsert_record_ne e l i :
  i <> Chroma.e_id e ->
  Chroma.find_id i (Chroma.upsert_record e l) = Chroma.find_id i l.
Proof.
  intros Hi. unfold Chroma.find_id.
  induction l as [|x l IH]; cbn [Chroma.upsert_record find].
  - by rewrite bool_decide_eq_false_2.
  - destruct (decide (Chroma.e_id x = Chroma.e_id e)) as [Heq|Hne]; cbn [find].
    + cbn [Chroma.update_record Chroma.e_id].
      rewrite !bool_decide_eq_false_2; [done | congruence | congruence].
    + by rewrite IH.
Qed.


(** A property of records that an update by [e] keeps is kept by an
    upsert of [e]. *)
Lemma upsert_record_Forall (P : Chroma.Entry -> Prop) e l :
  P e -> (forall x, P x -> P (Chroma.update_record x e)) ->
  Forall P l -> Forall P (Chroma.upsert_record e l).
Proof.
  intros He Hupd. induction 1 as [|x l Hx Hl IH]; cbn [Chroma.upsert_record].
  - by apply Forall_singleton.
  - case_decide; apply Forall_cons; auto.
Qed.

Lemma upsert_all_Forall (P : Chroma.Entry -> Prop) es l :
  Forall (fun e => P e /\ forall x, P x -> P (Chroma.update_record x e)) es ->
  Forall P l -> Forall P (Chroma.upsert_all l es).
Proof.
  intros Hes. revert l.
  induction Hes as [|e es [He Hupd] Hes IH]; intros l Hl; [done|].
  apply IH. by apply upsert_record_Forall.
Qed.

Lemma upsert_all_dimension (d : nat) es l :
  Forall (fun e => length (Chroma.e_embedding e) = d) es ->
  Forall (fun e => length (Chroma.e_embedding e) = d) l ->
  Forall (fun e => length (Chroma.e_embedding e) = d) (Chroma.upsert_all l es).
Proof.
  intros Hes. apply upsert_all_Forall.
  eapply Forall_impl; [exact Hes|]. intros e He. split; [exact He|]. by intros x _.
Qed.

Lemma upsert_all_metadata_within keys es l :
  Chroma.metadata_within keys es -> Chroma.metadata_within keys l ->
  Chroma.metadata_within keys (Chroma.upsert_all l es).
Proof.
  intros Hes. apply upsert_all_Forall.
  eapply Forall_impl; [exact Hes|]. intros e He. split; [exact He|].
  intros x Hx. cbn [Chroma.update_record Chroma.e_metadata].
  rewrite dom_union_L. apply union_subseteq. split; assumption.
Qed.

Lemma upsert_all_NoDup es l :
  NoDup (Chroma.e_id <$> l) -> NoDup (Chroma.e_id <$> Chroma.upsert_all l es).
Proof.
  revert l. induction es as [|e es IH]; intros l Hnd; simpl; [done|].
  apply IH, upsert_record_NoDup, Hnd.
Qed.

Lemma find_id_upsert_all_other es l i :
  i ∉ Chroma.e_id <$> es ->
  Chroma.find_id i (Chroma.upsert_all l es) = Chroma.find_id i l.
Proof.
  revert l. induction es as [|e es IH]; intros l Hi; simpl; [done|].
  rewrite fmap_cons, not_elem_of_cons in Hi. destruct Hi as [Hne Hi].
  rewrite IH by done. by apply find_id_upsert_record_ne.
Qed.

(** After a batch with distinct ids, whose records all carry the metadata
    keys [keys], into records with no other keys, each record of the
    batch is the one stored under its id. *)
Lemma find_id_upsert_all keys es l e :
  NoDup (Chroma.e_id <$> es) ->
  Forall (fun e => dom (Chroma.e_metadata e) = keys) es ->
  Chroma.metadata_within keys l ->
  e ∈ es ->
  Chroma.find_id (Chroma.e_id e) (Chroma.upsert_all l es) = Some e.
Proof.
  revert l. induction es as [|e0 es IH]; intros l Hnd Hkeys Hl Hin;
    [by apply elem_of_nil in Hin|].
  rewrite fmap_cons in Hnd. apply NoDup_cons in Hnd as [Hfresh Hnd].
  apply Forall_cons in Hkeys as [Hk0 Hkeys].
  apply elem_of_cons in Hin as [->|Hin]; cbn [Chroma.upsert_all foldl].
  - change (foldl _ ?l0 es) with (Chroma.upsert_all l0 es).
    rewrite find_id_upsert_all_other by done.
    apply find_id_upsert_record_eq. by rewrite Hk0.
  - apply IH; [done | done | | done].
    apply (upsert_all_metadata_within keys [e0] l); [|done].
    apply Forall_singleton. by rewrite Hk0.
Qed.




Lemma filter_ext_elem {A : Type} (P Q : A -> Prop)
    `{forall x, Decision (P x)} `{forall x, Decision (Q x)} (l : list A) :
  (forall x, x ∈ l -> P x <-> Q x) -> filter P l = filter Q l.
Proof.
  induction l as [|x l IH]; intros Hext; [done|].
  assert (filter P l = filter Q l) as Htl.
  { apply IH. intros y Hy. apply Hext, elem_of_cons. by right. }
  destruct (decide (P x)) as [HP|HP].
  - rewrite !filter_cons_True; [by rewrite Htl | | done].
    apply Hext; [apply elem_of_cons; by left | done].
  - rewrite !filter_cons_False; [done | | done].
    intros HQ. apply HP, Hext; [apply elem_of_cons; by left | done].
Qed.

(** The ids after a batch: the old ids in place, then the new ones in
    batch order. *)
Lemma upsert_all_ids es l :
  NoDup (Chroma.e_id <$> es) ->
  Chroma.e_id <$> Chroma.upsert_all l es
  = (Chroma.e_id <$> l)
    ++ filter (fun i => i ∉ Chroma.e_id <$> l) (Chroma.e_id <$> es).
Proof.
  revert l. induction es as [|e es IH]; intros l Hnd; simpl.
  - by rewrite app_nil_r.
  - rewrite fmap_cons in Hnd. apply NoDup_cons in Hnd as [Hfresh Hnd].
    rewrite IH by done. rewrite upsert_record_ids.
    destruct (decide (Chroma.e_id e ∈ Chroma.e_id <$> l)) as [Hin|Hnin].
    + rewrite filter_cons_False by (intros H; by apply H). done.
    + rewrite filter_cons_True by done. rewrite <-app_assoc. simpl. do 2 f_equal.
      apply filter_ext_elem. intros i Hi.
      rewrite elem_of_app, list_elem_of_singleton.
      split; [tauto|]. intros Hl [?| ->]; [done|]. contradiction.
Qed.

Lemma upsert_all_nonempty es l :
  l ++ es <> [] -> Chroma.upsert_all l es <> [].
Proof.
  revert l. induction es as [|e es IH]; intros l Hne.
  - by rewrite app_nil_r in Hne.
  - apply IH. destruct l; cbn [Chroma.upsert_record]; [done|]. by case_decide.
Qed.

(** A non-empty list of records of dimension [d] is an index of
    dimension [d]. *)
Lemma dimension_uniform (c : Chroma.Collection) (d : nat) :
  Chroma.records c <> [] ->
  Forall (fun e => length (Chroma.e_embedding e) = d) (Chroma.records c) ->
  Chroma.dimension c = Some d
  /\ Forall (fun e => Chroma.dimension c = Some (length (Chroma.e_embedding e)))
       (Chroma.records c).
Proof.
  intros Hne Hall. unfold Chroma.dimension.
  destruct (Chroma.records c) as [|x l]; [done|].
  apply Forall_cons in Hall as [Hx Hl]. rewrite Hx. split; [done|].
  apply Forall_cons. split; [by rewrite Hx|].
  eapply Forall_impl; [exact Hl|]. intros y Hy. simpl in Hy. by rewrite Hy.
Qed.

Lemma well_formed_uniform (c : Chroma.Collection) (d : nat) :
  Chroma.well_formed c -> Chroma.accepts c d ->
  Forall (fun e => length (Chroma.e_embedding e) = d) (Chroma.records c).
Proof.
  intros [_ Huni] [Hnone|Hd].
  - unfold Chroma.dimension in Hnone. by destruct (Chroma.records c).
  - eapply Forall_impl; [exact Huni|]. intros e He. simpl in He.
    rewrite Hd in He. by injection He.
Qed.

Lemma entries_snoc (ids : list string) (embs : list (list float))
    (metas : list (gmap string string)) (docs : list string)
    (i : string) (v : list float) (m : gmap string string) (t : string) :
  length embs = length ids -> length metas = length ids -> length docs = length ids ->
  Chroma.entries (ids ++ [i]) (embs ++ [v]) (metas ++ [m]) (docs ++ [t])
  = Chroma.entries ids embs metas docs ++ [Chroma.mkEntry i t v m].
Proof.
  intros He Hm Hd. unfold Chroma.entries.
  rewrite (zip_with_app pair ids [i] docs [t]) by done.
  rewrite (zip_with_app pair embs [v] metas [m]) by congruence.
  rewrite zip_with_app; [done|].
  rewrite !length_zip_with. lia.
Qed.

Lemma entries_embeddings (P : list float -> Prop) (ids : list string)
    (embs : list (list float)) (metas : list (gmap string string))
    (docs : list string) :
  Forall P embs ->
  Forall (fun e => P (Chroma.e_embedding e)) (Chroma.entries ids embs metas docs).
Proof.
  intros Hall. apply Forall_forall. intros e He.
  unfold Chroma.entries in He.
  apply elem_of_zip_with in He as (id_doc & [v m] & -> & _ & Hvm).
  cbn [Chroma.e_embedding fst]. apply elem_of_zip_l in Hvm.
  rewrite Forall_forall in Hall. by apply Hall.
Qed.

(** Under the conditions the client checks, [upsert] succeeds and its
    result is the batch, its vectors in 32 bits, upserted record by
    record. *)
Lemma upsert_succeeds (docs : list string) (embs : list (list float))
    (metas : list (gmap string string)) (ids : list string)
    (c : Chroma.Collection) (d : nat) :
  ids <> [] -> NoDup ids ->
  length embs = length ids -> length metas = length ids -> length docs = length ids ->
  0 < d -> Forall (fun v => length v = d) embs -> Chroma.accepts c d ->
  Chroma.upsert docs embs metas ids c
  = Ok (Chroma.with_records c
          (Chroma.upsert_all (Chroma.records c)
             (Chroma.entries ids ((fun v : list float => Chroma.float32 <$> v) <$> embs)
                metas docs))).
Proof.
  intros Hne Hnd He Hm Hd Hpos Hdim Hacc. unfold Chroma.upsert.
  set (vectors := (fun v : list float => Chroma.float32 <$> v) <$> embs).
  assert (Chroma.normalize_embeddings embs = Ok vectors) as ->.
  { destruct embs as [|[|x v] embs]; [destruct ids; done | | done].
    apply Forall_cons in Hdim as [Hv _]. cbn [length] in Hv. lia. }
  assert (Forall (fun v => length v = d) vectors) as Hdim'.
  { unfold vectors. apply Forall_fmap. eapply Forall_impl; [exact Hdim|].
    intros v Hv. cbn. by rewrite length_fmap. }
  cbn [mbind result_bind].
  unfold Chroma.validate_lengths. rewrite decide_True; cycle 1.
  { unfold vectors. by rewrite length_fmap. }
  unfold Chroma.validate_ids. rewrite decide_False by done. rewrite decide_True by done.
  unfold Chroma.validate_embeddings.
  assert (list_find (fun v : list float => v = []) vectors = None) as ->.
  { apply list_find_None. eapply Forall_impl; [exact Hdim'|].
    intros v Hv ->. cbn [length] in Hv. lia. }
  unfold Chroma.validate_dimension.
  assert ((match Chroma.dimension c with
           | Some d' => Some d'
           | None => length <$> head vectors
           end) = Some d) as ->.
  { destruct Hacc as [-> | ->]; [|done].
    destruct vectors as [|v vs] eqn:Hvs.
    - apply (f_equal length) in Hvs. unfold vectors in Hvs.
      rewrite length_fmap in Hvs. destruct ids; [done|]. cbn [length] in *. lia.
    - apply Forall_cons in Hdim' as [<- _]. done. }
  by rewrite decide_True.
Qed.

End ChromaFacts.

(** ** Ingestion through the retriever *)
Section RetrieverFacts.

Import NewsRetriever.

Lemma article_id_inj : Inj (=) (=) article_id.
Proof.
  intros m n Heq. unfold article_id, str_of_nat in Heq.
  apply (inj (String.append "article_")) in Heq. by apply (inj pretty) in Heq.
Qed.

Lemma batch_entries_ids (idx : nat) (articles : list Article) :
  Chroma.e_id <$> batch_entries idx articles = article_id <$> seq idx (length articles).
Proof.
  revert idx. induction articles as [|a rest IH]; intros idx; [done|].
  cbn [batch_entries length seq]. rewrite !fmap_cons, IH. done.
Qed.

Lemma batch_entries_NoDup (idx : nat) (articles : list Article) :
  NoDup (Chroma.e_id <$> batch_entries idx articles).
Proof.
  rewrite batch_entries_ids. eapply @NoDup_fmap_2; [exact article_id_inj | apply NoDup_seq].
Qed.

Lemma batch_entries_length (idx : nat) (articles : list Article) :
  length (batch_entries idx articles) = length articles.
Proof.
  rewrite <-(length_fmap Chroma.e_id), batch_entries_ids, length_fmap.
  apply length_seq.
Qed.


Lemma article_metadata_dom (article : Article) :
  dom (article_metadata article) = metadata_keys.
Proof.
  unfold article_metadata, py_dict, metadata_keys. cbn [foldl fst snd].
  rewrite !dom_insert_L, dom_empty_L. set_solver.
Qed.

Lemma batch_entries_keys (idx : nat) (articles : list Article) :
  Forall (fun e => dom (Chroma.e_metadata e) = metadata_keys)
    (batch_entries idx articles).
Proof.
  revert idx. induction articles as [|a rest IH]; intros idx; cbn [batch_entries].
  - constructor.
  - apply Forall_cons. split; [apply article_metadata_dom | apply IH].
Qed.

Lemma batch_entries_within (idx : nat) (articles : list Article) :
  Chroma.metadata_within metadata_keys (batch_entries idx articles).
Proof.
  eapply Forall_impl; [apply batch_entries_keys|]. intros e He. simpl in He.
  by rewrite He.
Qed.

Lemma batch_entries_dimension (d idx : nat) (articles : list Article) :
  Forall (embedded_with d) articles ->
  Forall (fun e => length (Chroma.e_embedding e) = d) (batch_entries idx articles).
Proof.
  intros Hall. revert idx.
  induction Hall as [|a rest (v & Hv & Hlen) _ IH]; intros idx; cbn [batch_entries].
  - constructor.
  - apply Forall_cons. split; [|apply IH].
    cbn [stored_entry Chroma.e_embedding]. rewrite Hv. cbn [default].
    by rewrite length_fmap.
Qed.

(** The loop on articles that all carry an embedding: it appends one
    record per article, with the ids [article_idx], [article_(idx+1)], ... *)
Lemma add_documents_loop_embedded (d idx : nat) (articles : list Article) (acc : Batch) :
  Forall (embedded_with d) articles -> balanced acc ->
  exists b,
    add_documents_loop idx articles acc = Ok b
    /\ balanced b
    /\ batch_records b = batch_records acc ++ batch_entries idx articles
    /\ ids b = ids acc ++ (article_id <$> seq idx (length articles))
    /\ embeddings b
       = embeddings acc ++ ((fun a => default [] (embedding a)) <$> articles).
Proof.
  intros Hall. revert idx acc.
  induction Hall as [|a rest (v & Hv & Hlen) _ IH]; intros idx acc Hbal.
  - exists acc. cbn [add_documents_loop batch_entries length seq].
    rewrite !fmap_nil, !app_nil_r. done.
  - cbn [add_documents_loop]. rewrite Hv. cbn [mbind result_bind].
    set (acc' := mkBatch _ _ _ _).
    destruct Hbal as (He & Hm & Hd).
    assert (balanced acc') as Hbal'.
    { unfold balanced, acc'. cbn [embeddings ids metadatas documents].
      rewrite !length_app. simpl. lia. }
    destruct (IH (S idx) acc' Hbal') as (b & Hrun & Hb & Hrec & Hids & Hembs).
    exists b. split_and!; [done | done | | |].
    + rewrite Hrec. unfold batch_records, acc'. cbn [embeddings ids metadatas documents].
      rewrite fmap_app, fmap_cons, fmap_nil.
      rewrite entries_snoc by (by rewrite ?length_fmap).
      rewrite <-app_assoc. cbn [batch_entries]. rewrite Hv. done.
    + rewrite Hids. unfold acc'. cbn [ids length seq]. rewrite <-app_assoc. done.
    + rewrite Hembs. unfold acc'. cbn [embeddings]. rewrite <-app_assoc, fmap_cons, Hv. done.
Qed.

(** The loop stops with [KeyError] at an article without an embedding. *)
Lemma add_documents_loop_missing (idx : nat) (articles : list Article) (acc : Batch) :
  Exists (fun a => embedding a = None) articles ->
  add_documents_loop idx articles acc = Raise (KeyError "embedding").
Proof.
  intros Hex. revert idx acc.
  induction articles as [|a rest IH]; intros idx acc; [by apply Exists_nil in Hex|].
  cbn [add_documents_loop]. destruct (embedding a) as [v|] eqn:Hv; [|done].
  cbn [mbind result_bind]. apply IH.
  apply Exists_cons in Hex as [Ha|Hrest]; [congruence | done].
Qed.

(** A run of [add_documents] on an accepted batch: the batch is upserted
    under positional ids, three lines are printed, [None] is returned. *)
Lemma add_documents_run (self : NewsRetriever) (out : list string) (d : nat)
    (articles : list Article) :
  ingestible self d articles ->
  add_documents articles (self, out)
  = (Ok PyNone,
     (ingested self articles,
      out ++ add_documents_output (length articles)
               (Chroma.count (collection (ingested self articles))))).
Proof.
  intros (Hne & Hpos & Hall & Hacc).
  destruct (add_documents_loop_embedded d 0 articles (mkBatch [] [] [] []) Hall)
    as (b & Hrun & (He & Hm & Hd) & Hrec & Hids & Hembs); [done|].
  cbn [ids embeddings app] in Hids, Hembs. cbn [batch_records Chroma.entries] in Hrec.
  unfold add_documents, mbind, M_bind, print, lift, get_self, put_self.
  cbn [fst snd]. rewrite Hrun. cbn [fst snd].
  rewrite (upsert_succeeds _ _ _ _ _ d); try done.
  - fold (batch_records b). rewrite Hrec.
    change (batch_records (mkBatch [] [] [] [])) with (@nil Chroma.Entry).
    cbn [app]. unfold ingested, add_documents_output, mret, M_ret.
    rewrite <-!app_assoc. done.
  - rewrite Hids. destruct articles; [done|]. done.
  - rewrite Hids. eapply @NoDup_fmap_2; [exact article_id_inj | apply NoDup_seq].
  - rewrite Hembs. apply Forall_fmap. eapply Forall_impl; [exact Hall|].
    intros a (v & Hv & Hlen). simpl. by rewrite Hv.
Qed.

(** Ingestion keeps the stored metadata within the keys of
    [article_metadata]. *)
Lemma ingested_metadata_within (self : NewsRetriever) (articles : list Article) :
  Chroma.metadata_within metadata_keys (Chroma.records (collection self)) ->
  Chroma.metadata_within metadata_keys
    (Chroma.records (collection (ingested self articles))).
Proof.
  intros Hl. apply upsert_all_metadata_within; [apply batch_entries_within | done].
Qed.

(** Ingestion keeps the collection well formed, at the batch's dimension. *)
Lemma ingested_well_formed (self : NewsRetriever) (d : nat) (articles : list Article) :
  Chroma.well_formed (collection self) -> ingestible self d articles ->
  Chroma.well_formed (collection (ingested self articles))
  /\ Chroma.dimension (collection (ingested self articles)) = Some d.
Proof.
  intros Hwf (Hne & Hpos & Hall & Hacc).
  pose proof (well_formed_uniform _ _ Hwf Hacc) as Huni.
  destruct Hwf as [Hnd _].
  set (c' := collection (ingested self articles)).
  assert (Chroma.records c' <> []) as Hne'.
  { apply upsert_all_nonempty. intros [_ Hnil]%app_eq_nil.
    apply (f_equal length) in Hnil. rewrite batch_entries_length in Hnil.
    by destruct articles. }
  assert (Forall (fun e => length (Chroma.e_embedding e) = d) (Chroma.records c')) as Huni'.
  { apply upsert_all_dimension; [by apply batch_entries_dimension | done]. }
  destruct (dimension_uniform c' d Hne' Huni') as [Hdim Hall'].
  split; [split|]; [|done|done].
  apply upsert_all_NoDup, Hnd.
Qed.









Lemma filter_all {A : Type} (P : A -> Prop) `{forall x, Decision (P x)} (l : list A) :
  (forall x, x ∈ l -> P x) -> filter P l = l.
Proof.
  induction l as [|x l IH]; intros Hall; [done|].
  rewrite filter_cons_True by (apply Hall, elem_of_cons; by left).
  f_equal. apply IH. intros y Hy. apply Hall, elem_of_cons. by right.
Qed.



(** An article without an embedding stops the call before anything is
    sent to the collection. *)
Lemma add_documents_missing_embedding (self : NewsRetriever) (out : list string)
    (articles : list Article) :
  Exists (fun a => embedding a = None) articles ->
  add_documents articles (self, out)
  = (Raise (KeyError "embedding"),
     (self, out ++ ["Adding " +:+ str_of_nat (length articles)
                    +:+ " documents to collection..."])).
Proof.
  intros Hex. unfold add_documents, mbind, M_bind, print, lift.
  cbn [fst snd]. by rewrite add_documents_loop_missing.
Qed.



(** Ingestion keeps the invariants of the collection: after a successful
    [add_documents] no two records share an id, every stored vector has
    the one dimension of the index, and the stored metadata has no keys
    but those of [article_metadata]; the retriever's names are untouched. *)
Theorem add_documents_preserves_well_formed (self : NewsRetriever) (out : list string)
    (d : nat) (articles : list Article) :
  Chroma.well_formed (collection self) ->
  Chroma.metadata_within metadata_keys (Chroma.records (collection self)) ->
  ingestible self d articles ->
  exists self' out',
    add_documents articles (self, out) = (Ok PyNone, (self', out'))
    /\ Chroma.well_formed (collection self')
    /\ Chroma.dimension (collection self') = Some d
    /\ Chroma.metadata_within metadata_keys (Chroma.records (collection self'))
    /\ collection_name self' = collection_name self
    /\ persist_directory self' = persist_directory self.
Proof.
  intros Hwf Hkeys Hing. eexists _, _.
  split; [exact (add_documents_run self out d articles Hing)|].
  destruct (ingested_well_formed self d articles Hwf Hing) as [Hwf' Hdim].
  split; [exact Hwf'|]. split; [exact Hdim|].
  split; [by apply ingested_metadata_within|]. split; reflexivity.
Qed.

End RetrieverFacts.

(** ** Queries through the retriever *)
Section QueryFacts.

Import NewsRetriever.

Variable knn_search : list Chroma.Entry -> list float -> list (Chroma.Entry * float).
Variable embedding_function : string -> list float.

Abbreviation chroma_query := (Chroma.query knn_search embedding_function).
Abbreviation nearest := (Chroma.nearest knn_search).
Abbreviation hit_metadatas := (Chroma.hit_metadatas knn_search).

Lemma validate_n_results_inv (n : Z) (u : unit) :
  Chroma.validate_n_results n = Ok u -> (0 < n)%Z.
Proof.
  unfold Chroma.validate_n_results. case_decide; [discriminate | lia].
Qed.

(** Whatever [query] returns on one query, its metadata lists are those
    of the nearest records, one inner list for the one query. *)
Lemma chroma_query_inv (qe : option (list (list float))) (qt : option (list string))
    (n : Z) (c : Chroma.Collection) (r : Chroma.QueryResult) :
  chroma_query qe qt n c = Ok r ->
  exists queries,
    match qe, qt with
    | Some qs, _ => queries = qs
    | None, Some ts => queries = embedding_function <$> ts
    | None, None => False
    end
    /\ (0 < n)%Z
    /\ Chroma.qr_metadatas r = hit_metadatas c n <$> queries
    /\ Chroma.qr_distances r = (fun q => snd <$> nearest c n q) <$> queries.
Proof.
  unfold Chroma.query. intros Hrun.
  destruct (Chroma.validate_n_results n) as [[]|e] eqn:Hn; [|discriminate].
  apply validate_n_results_inv in Hn. cbn [mbind result_bind] in Hrun.
  destruct qe as [qs|]; [|destruct qt as [ts|]]; cbn [mbind result_bind] in Hrun;
    [| |discriminate].
  - destruct (Chroma.validate_query_dimension c qs); [|discriminate].
    injection Hrun as <-. exists qs. cbn [Chroma.qr_metadatas Chroma.qr_distances].
    rewrite <-!list_fmap_compose. done.
  - destruct (Chroma.validate_query_dimension c _); [|discriminate].
    injection Hrun as <-. exists (embedding_function <$> ts).
    cbn [Chroma.qr_metadatas Chroma.qr_distances].
    rewrite <-!list_fmap_compose. done.
Qed.

Lemma chroma_query_ok (q : list float) (n : Z) (c : Chroma.Collection) :
  (0 < n)%Z -> Chroma.accepts c (length q) ->
  exists r, chroma_query (Some [q]) None n c = Ok r
            /\ Chroma.qr_metadatas r = [hit_metadatas c n q].
Proof.
  intros Hn Hacc. unfold Chroma.query, Chroma.validate_n_results.
  rewrite decide_False by lia. cbn [mbind result_bind].
  unfold Chroma.validate_query_dimension.
  destruct Hacc as [-> | ->].
  - eexists. split; reflexivity.
  - rewrite decide_True by (by apply Forall_singleton).
    eexists. split; reflexivity.
Qed.

Lemma chroma_query_texts_ok (t : string) (n : Z) (c : Chroma.Collection) :
  (0 < n)%Z -> Chroma.accepts c (length (embedding_function t)) ->
  exists r, chroma_query None (Some [t]) n c = Ok r
            /\ Chroma.qr_metadatas r = [hit_metadatas c n (embedding_function t)].
Proof.
  intros Hn Hacc. unfold Chroma.query, Chroma.validate_n_results.
  rewrite decide_False by lia. cbn [mbind result_bind fmap list_fmap].
  unfold Chroma.validate_query_dimension.
  destruct Hacc as [-> | ->].
  - eexists. split; reflexivity.
  - rewrite decide_True by (by apply Forall_singleton).
    eexists. split; reflexivity.
Qed.

Lemma row_of_metadata_fields (m : gmap string string) :
  (row_of_metadata m).*1 = row_fields.
Proof. reflexivity. Qed.

Lemma row_of_metadata_no_score (m : gmap string string) :
  Pandas.row_get (row_of_metadata m) "score" = None.
Proof. reflexivity. Qed.

Lemma from_records_columns (ms : list (gmap string string)) :
  Pandas.columns (Pandas.from_records (row_of_metadata <$> ms))
  = match ms with
    | [] => []
    | _ :: _ => row_fields
    end.
Proof.
  destruct ms as [|m ms]; [reflexivity|].
  cbn [Pandas.from_records Pandas.columns fmap list_fmap foldl].
  change (Pandas.add_columns [] (row_of_metadata m)) with row_fields.
  induction ms as [|m' ms IH]; [reflexivity|]. exact IH.
Qed.

(** Every run of [query_to_dataframe]: the query line is printed, the
    collection is searched once, and the frame has one row per hit.  The
    retriever itself is left as it was. *)
Lemma query_to_dataframe_inv (self : NewsRetriever) (out : list string)
    (query_text : string) (k : Z) (embedder : option NewsEmbedder.NewsEmbedder)
    (df : Pandas.DataFrame) (st' : NewsRetriever * list string) :
  query_to_dataframe knn_search embedding_function query_text k embedder (self, out)
  = (Ok df, st') ->
  (0 < k)%Z
  /\ st' = (self, out ++ [NL +:+ "Querying: '" +:+ query_text +:+ "'"])
  /\ df = Pandas.from_records
            (row_of_metadata
               <$> hit_metadatas (collection self) k
                     (query_vector embedding_function embedder query_text)).
Proof.
  unfold query_to_dataframe, query, mbind, M_bind, print, lift, get_self.
  cbn [fst snd]. intros Hrun.
  destruct embedder as [e|]; cbn [query_vector].
  - destruct (chroma_query (Some [NewsEmbedder.embed_text e query_text]) None k
                (collection self)) as [r|err] eqn:Hq; [|discriminate].
    apply chroma_query_inv in Hq as (queries & -> & Hk & Hm & _).
    injection Hrun as <- <-. rewrite Hm. done.
  - destruct (chroma_query None (Some [query_text]) k (collection self))
      as [r|err] eqn:Hq; [|discriminate].
    apply chroma_query_inv in Hq as (queries & -> & Hk & Hm & _).
    injection Hrun as <- <-. rewrite Hm. done.
Qed.

Lemma query_to_dataframe_run (self : NewsRetriever) (out : list string)
    (query_text : string) (k : Z) (embedder : option NewsEmbedder.NewsEmbedder) :
  (0 < k)%Z ->
  Chroma.accepts (collection self)
    (length (query_vector embedding_function embedder query_text)) ->
  query_to_dataframe knn_search embedding_function query_text k embedder (self, out)
  = (Ok (Pandas.from_records
           (row_of_metadata
              <$> hit_metadatas (collection self) k
                    (query_vector embedding_function embedder query_text))),
     (self, out ++ [NL +:+ "Querying: '" +:+ query_text +:+ "'"])).
Proof.
  intros Hk Hacc.
  unfold query_to_dataframe, query, mbind, M_bind, print, lift, get_self.
  cbn [fst snd].
  destruct embedder as [e|]; cbn [query_vector] in *.
  - destruct (chroma_query_ok _ k _ Hk Hacc) as (r & -> & Hm). by rewrite Hm.
  - destruct (chroma_query_texts_ok _ k _ Hk Hacc) as (r & -> & Hm). by rewrite Hm.
Qed.

Lemma exhaustive_length (l : list Chroma.Entry) (q : list float) :
  Chroma.exhaustive knn_search -> length (knn_search l q) = length l.
Proof.
  intros Hex. rewrite <-(length_fmap fst). apply Permutation_length, Hex.
Qed.


(** C8 (as the code has it): every row of a returned frame has exactly
    the four fields [title], [description], [link] and [date_published],
    in this order, filled from the metadata of the hit at that rank; the
    distances the collection returns are dropped, so no row has a
    [score]. *)
Theorem query_to_dataframe_row_fields (self : NewsRetriever) (out : list string)
    (query_text : string) (k : Z) (embedder : option NewsEmbedder.NewsEmbedder)
    (df : Pandas.DataFrame) (st' : NewsRetriever * list string) :
  query_to_dataframe knn_search embedding_function query_text k embedder (self, out)
  = (Ok df, st') ->
  Pandas.rows df
  = row_of_metadata
      <$> hit_metadatas (collection self) k
            (query_vector embedding_function embedder query_text)
  /\ Forall (fun row => row.*1 = row_fields) (Pandas.rows df)
  /\ Forall (fun row => Pandas.row_get row "score" = None) (Pandas.rows df)
  /\ Pandas.columns df = match Pandas.rows df with
                         | [] => []
                         | _ :: _ => row_fields
                         end.
Proof.
  intros Hrun. apply query_to_dataframe_inv in Hrun as (_ & _ & ->).
  set (ms := hit_metadatas _ _ _). split; [reflexivity|].
  cbn [Pandas.from_records Pandas.rows]. split_and!.
  - apply Forall_fmap, Forall_true. intros m. apply row_of_metadata_fields.
  - apply Forall_fmap, Forall_true. intros m. apply row_of_metadata_no_score.
  - change (foldl Pandas.add_columns [] (row_of_metadata <$> ms))
      with (Pandas.columns (Pandas.from_records (row_of_metadata <$> ms))).
    rewrite from_records_columns. by destruct ms.
Qed.

End QueryFacts.

(** ** The constructor of the retriever *)
Section InitFacts.

Variable mkdir : string -> result unit.
Variable PersistentClient : string -> result Chroma.Client.
Variable validate_collection_name : string -> result unit.

(** The constructor, seen from its outcome.  When it returns, the
    directory was made, the client was opened, and the retriever is bound
    to a collection: the one the client holds under that name, as it is,
    or else, the name being one the client takes, a new empty collection
    with cosine distance; it never returns a retriever without a
    collection.  When it raises, the exception is the one [mkdir], the
    opening of the client or the creation of the collection raised, never
    the one of the failed lookup. *)
Theorem retriever_init_binds_collection {S : Type}
    (collection_name persist_directory : string) (st : S * list string) :
  match NewsRetriever.__init__ mkdir PersistentClient validate_collection_name
          collection_name persist_directory st with
  | (Ok self, st') =>
      mkdir persist_directory = Ok tt
      /\ NewsRetriever.collection_name self = collection_name
      /\ NewsRetriever.persist_directory self = persist_directory
      /\ st'.1 = st.1
      /\ exists client,
           PersistentClient persist_directory = Ok client
           /\ match client !! collection_name with
              | Some c =>
                  NewsRetriever.collection self = c
                  /\ st'.2 = st.2 ++ ["Initializing ChromaDB in: " +:+ persist_directory;
                                      "Loaded existing collection: " +:+ collection_name]
              | None =>
                  validate_collection_name collection_name = Ok tt
                  /\ NewsRetriever.collection self
                     = Chroma.mkCollection collection_name
                         (py_dict [("hnsw:space", "cosine")]) []
                  /\ st'.2 = st.2 ++ ["Initializing ChromaDB in: " +:+ persist_directory;
                                      "Created new collection: " +:+ collection_name]
              end
  | (Raise e, st') =>
      st'.1 = st.1
      /\ (mkdir persist_directory = Raise e /\ st'.2 = st.2
          \/ mkdir persist_directory = Ok tt
             /\ st'.2 = st.2 ++ ["Initializing ChromaDB in: " +:+ persist_directory]
             /\ (PersistentClient persist_directory = Raise e
                 \/ exists client,
                      PersistentClient persist_directory = Ok client
                      /\ client !! collection_name = None
                      /\ validate_collection_name collection_name = Raise e))
  end.
Proof.
  destruct st as [s out].
  unfold NewsRetriever.__init__, mbind, M_bind, print, lift. cbn [fst snd].
  destruct (mkdir persist_directory) as [[]|e]; [|by split; [|left]].
  destruct (PersistentClient persist_directory) as [client|e];
    [|split; [done|]; right; split_and!; [done | done | by left]].
  unfold Chroma.get_collection.
  destruct (client !! collection_name) as [c|] eqn:Hc.
  - cbn [mret M_ret fst snd]. split_and!; try done.
    exists client. split; [done|]. rewrite Hc. split; [done|]. by rewrite <-app_assoc.
  - unfold Chroma.create_collection.
    destruct (validate_collection_name collection_name) as [[]|e].
    + cbn [mbind result_bind mret result_ret M_ret fst snd]. split_and!; try done.
      exists client. split; [done|]. rewrite Hc. split_and!; try done.
      by rewrite <-app_assoc.
    + cbn [mbind result_bind fst snd]. split; [done|]. right. split_and!; try done.
      right. by exists client.
Qed.

End InitFacts.

(** ** Embedding a batch of articles *)
Section EmbedderFacts.

Import NewsEmbedder.

Lemma zip_with_fmap_same {A B C : Type} (f : A -> B -> C) (g : A -> B) (l : list A) :
  zip_with f l (g <$> l) = (fun a => f a (g a)) <$> l.
Proof.
  induction l as [|a l IH]; [done|].
  rewrite !fmap_cons. cbn [zip_with]. by rewrite IH.
Qed.

(** Where the model encodes a list of texts as it encodes each text
    alone, [embed_articles] returns one article per input, in order, each
    with its own fields, the key [text] set to its title and description,
    and as embedding the vector [embed_text] gives for that text. *)
Theorem embed_articles_aligned {S : Type} (self : NewsEmbedder)
    (articles : list Article) (st : S * list string) :
  encode_batch (model self) (title_nl_description <$> articles)
  = encode (model self) <$> (title_nl_description <$> articles) ->
  exists embedded out',
    embed_articles self articles st = (Ok embedded, (st.1, out'))
    /\ length embedded = length articles
    /\ forall i a, articles !! i = Some a ->
         embedded !! i
         = Some (mkArticle (<["text" := title_nl_description a]> (fields a))
                   (Some (embed_text self (title_nl_description a)))).
Proof.
  intros Hbatch. unfold embed_articles, mbind, M_bind, print. cbn [fst snd].
  rewrite Hbatch, <-list_fmap_compose, zip_with_fmap_same.
  eexists _, _. split; [reflexivity|]. split; [by rewrite length_fmap|].
  intros i a Hi. rewrite list_lookup_fmap, Hi. reflexivity.
Qed.

End EmbedderFacts.

(** ** Collection statistics *)
Section StatsFacts.

Import NewsRetriever.

(** C7 (as the code has it): [get_collection_stats] reads the retriever
    without changing it and returns a new dictionary with exactly the keys
    [collection_name], [document_count] and [persist_directory]; the count
    is the number of records stored when it is called.  There is no key
    [storage_location]. *)
Theorem get_collection_stats_keys (self : NewsRetriever) (out : list string) :
  exists stats : gmap string pyval,
    get_collection_stats (self, out) = (Ok stats, (self, out))
    /\ dom stats = {["collection_name"; "document_count"; "persist_directory"]}
    /\ stats !! "collection_name" = Some (PyStr (collection_name self))
    /\ stats !! "document_count"
       = Some (PyInt (Z.of_nat (length (Chroma.records (collection self)))))
    /\ stats !! "persist_directory" = Some (PyStr (persist_directory self))
    /\ stats !! "storage_location" = None.
Proof.
  eexists. split; [reflexivity|].
  unfold py_dict. cbn [foldl fst snd].
  split_and!.
  - rewrite !dom_insert_L, dom_empty_L. set_solver.
  - by simplify_map_eq.
  - by simplify_map_eq.
  - by simplify_map_eq.
  - by simplify_map_eq.
Qed.

End StatsFacts.

(** ** The pipeline before a vector store is bound *)
Section PipelineFacts.

Import NewsRetrievalPipeline.

Variable Embeddings : Type.
Variable HuggingFaceEmbeddings : string -> result Embeddings.
Variable VectorStore : Type.
Variable similarity_search : VectorStore -> string -> Z -> result (list Document).

(** The constructor leaves the vector store unset. *)
Lemma init_vectorstore_none {S : Type} (model_name persist_directory : string)
    (st st' : S * list string) (self : NewsRetrievalPipeline Embeddings VectorStore) :
  __init__ Embeddings HuggingFaceEmbeddings VectorStore model_name persist_directory st
  = (Ok self, st') ->
  vectorstore _ _ self = None.
Proof.
  unfold __init__, mbind, M_bind, print, lift. cbn [fst snd].
  destruct (HuggingFaceEmbeddings model_name) as [emb|e]; [|discriminate].
  cbn [mret M_ret]. intros [= <- _]. reflexivity.
Qed.

(** C5 (as the code has it): while no vector store is bound, every call
    to [query], and so to [query_to_dataframe], raises [ValueError] with
    the message that the store is not initialized; nothing is searched or
    printed and no empty result is returned. *)
Theorem pipeline_query_uninitialized (self : NewsRetrievalPipeline Embeddings VectorStore)
    (out : list string) (query_text : string) (k : Z) :
  vectorstore _ _ self = None ->
  query _ _ similarity_search query_text k (self, out)
  = (Raise (ValueError not_initialized_message), (self, out))
  /\ query_to_dataframe _ _ similarity_search query_text k (self, out)
     = (Raise (ValueError not_initialized_message), (self, out))
  /\ exn_class (ValueError not_initialized_message) = "ValueError".
Proof.
  intros Hnone.
  assert (query _ _ similarity_search query_text k (self, out)
          = (Raise (ValueError not_initialized_message), (self, out))) as Hq.
  { unfold query, mbind, M_bind, get_self, lift. cbn [fst snd]. by rewrite Hnone. }
  split; [exact Hq|]. split; [|reflexivity].
  unfold query_to_dataframe, mbind, M_bind. by rewrite Hq.
Qed.

End PipelineFacts.

(** ** More on ingestion *)
Section IngestionFacts.

Import NewsRetriever.

Implicit Types (e : Chroma.Entry) (l es : list Chroma.Entry) (i : string).

Lemma upsert_record_fresh e l :
  Chroma.e_id e ∉ Chroma.e_id <$> l -> Chroma.upsert_record e l = l ++ [e].
Proof.
  induction l as [|x l IH]; intros Hfresh; [done|].
  rewrite fmap_cons, not_elem_of_cons in Hfresh. destruct Hfresh as [Hne Hfresh].
  cbn [Chroma.upsert_record]. rewrite decide_False by congruence.
  by rewrite IH.
Qed.

(** A batch of new, distinct ids is appended as it stands. *)
Lemma upsert_all_fresh es l :
  NoDup (Chroma.e_id <$> es) ->
  (forall i, i ∈ Chroma.e_id <$> es -> i ∉ Chroma.e_id <$> l) ->
  Chroma.upsert_all l es = l ++ es.
Proof.
  revert l. induction es as [|e es IH]; intros l Hnd Hfresh.
  - by rewrite app_nil_r.
  - rewrite fmap_cons in Hnd. apply NoDup_cons in Hnd as [He Hnd].
    cbn [Chroma.upsert_all foldl]. change (foldl _ ?l0 es) with (Chroma.upsert_all l0 es).
    rewrite upsert_record_fresh by (apply Hfresh, elem_of_cons; by left).
    rewrite IH; [by rewrite <-app_assoc | done |].
    intros i Hi. rewrite fmap_app, elem_of_app. intros [Hl|Hin].
    + apply (Hfresh i); [apply elem_of_cons; by right | done].
    + apply list_elem_of_singleton in Hin. by subst.
Qed.

Lemma filter_none {A : Type} (P : A -> Prop) `{forall x, Decision (P x)} (l : list A) :
  (forall x, x ∈ l -> ~ P x) -> filter P l = [].
Proof.
  induction l as [|x l IH]; intros Hall; [done|].
  rewrite filter_cons_False by (apply Hall, elem_of_cons; by left).
  apply IH. intros y Hy. apply Hall, elem_of_cons. by right.
Qed.

Lemma article_ids_elem (i m : nat) :
  article_id i ∈ article_id <$> seq 0 m <-> i < m.
Proof.
  split.
  - intros (k & Heq & Hk)%list_elem_of_fmap. apply article_id_inj in Heq. subst k.
    apply elem_of_seq in Hk. lia.
  - intros Hi. apply list_elem_of_fmap_2, elem_of_seq. lia.
Qed.

(** The positional ids a batch of [n] articles adds to the ids of [m]
    earlier positions. *)
Lemma new_positional_ids (m n : nat) :
  filter (fun i => i ∉ article_id <$> seq 0 m) (article_id <$> seq 0 n)
  = article_id <$> seq m (n - m).
Proof.
  destruct (decide (n <= m)) as [Hle|Hgt].
  - replace (n - m) with 0 by lia. apply filter_none.
    intros i (k & -> & Hk)%list_elem_of_fmap Hnot. apply Hnot.
    apply article_ids_elem. apply elem_of_seq in Hk. lia.
  - replace n with (m + (n - m)) at 1 by lia.
    rewrite seq_app, fmap_app, filter_app.
    rewrite filter_none, filter_all; [done | |].
    + intros i (k & -> & Hk)%list_elem_of_fmap. rewrite article_ids_elem.
      apply elem_of_seq in Hk. lia.
    + intros i Hi Hnot. by apply Hnot.
Qed.

(** The ids of a collection after ingestion. *)
Lemma ingested_ids (self : NewsRetriever) (articles : list Article) :
  Chroma.ids_of (collection (ingested self articles))
  = Chroma.ids_of (collection self)
    ++ filter (fun i => i ∉ Chroma.ids_of (collection self))
         (article_id <$> seq 0 (length articles)).
Proof.
  unfold Chroma.ids_of, ingested.
  cbn [collection with_collection Chroma.records Chroma.with_records].
  rewrite upsert_all_ids by apply batch_entries_NoDup.
  by rewrite batch_entries_ids.
Qed.

(** Ids are positions, so a collection filled by this retriever alone
    never holds more records than its largest batch: where the ids are
    [article_0 .. article_(m-1)], after a batch of [n] articles they are
    [article_0 .. article_(max m n - 1)] and the count is [max m n]. *)
Theorem add_documents_positional_prefix (self : NewsRetriever) (out : list string)
    (d m : nat) (articles : list Article) :
  Chroma.ids_of (collection self) = article_id <$> seq 0 m ->
  ingestible self d articles ->
  exists self' out',
    add_documents articles (self, out) = (Ok PyNone, (self', out'))
    /\ Chroma.ids_of (collection self')
       = article_id <$> seq 0 (m `max` length articles)
    /\ Chroma.count (collection self') = Z.of_nat (m `max` length articles).
Proof.
  intros Hids Hing. eexists _, _.
  split; [exact (add_documents_run self out d articles Hing)|].
  assert (Chroma.ids_of (collection (ingested self articles))
          = article_id <$> seq 0 (m `max` length articles)) as Hids'.
  { rewrite ingested_ids, Hids, new_positional_ids, <-fmap_app, <-seq_app.
    f_equal. f_equal. lia. }
  split; [exact Hids'|].
  unfold Chroma.count. rewrite <-(length_fmap Chroma.e_id).
  change (Chroma.e_id <$> Chroma.records ?c) with (Chroma.ids_of c).
  by rewrite Hids', length_fmap, length_seq.
Qed.

(** [add_documents] never deletes a record and never touches a record
    under an id that is not a position of the batch: the old ids stay, in
    their order, at the front; the record under any other id is the one
    that was there; the count grows by at most the size of the batch. *)
Theorem add_documents_keeps_other_records (self : NewsRetriever) (out : list string)
    (d : nat) (articles : list Article) :
  ingestible self d articles ->
  exists self' out',
    add_documents articles (self, out) = (Ok PyNone, (self', out'))
    /\ Chroma.ids_of (collection self) `prefix_of` Chroma.ids_of (collection self')
    /\ (forall i, i ∉ article_id <$> seq 0 (length articles) ->
          Chroma.get (collection self') i = Chroma.get (collection self) i)
    /\ (Chroma.count (collection self) <= Chroma.count (collection self')
        <= Chroma.count (collection self) + Z.of_nat (length articles))%Z.
Proof.
  intros Hing. eexists _, _.
  split; [exact (add_documents_run self out d articles Hing)|].
  split; [rewrite ingested_ids; by eexists|]. split.
  - intros i Hi. unfold Chroma.get, ingested.
    cbn [collection with_collection Chroma.records Chroma.with_records].
    apply find_id_upsert_all_other. by rewrite batch_entries_ids.
  - unfold Chroma.count. rewrite <-!(length_fmap Chroma.e_id).
    change (Chroma.e_id <$> Chroma.records ?c) with (Chroma.ids_of c).
    rewrite ingested_ids, length_app.
    pose proof (length_filter (fun i => i ∉ Chroma.ids_of (collection self))
                  (article_id <$> seq 0 (length articles))) as Hlen.
    rewrite length_fmap, length_seq in Hlen. lia.
Qed.

Lemma article_metadata_lookup (article : Article) (key : string) :
  key ∈ metadata_keys ->
  article_metadata article !! key = Some (dict_get (fields article) key "").
Proof.
  unfold metadata_keys, article_metadata, py_dict. cbn [foldl fst snd].
  intros Hkey. repeat (apply elem_of_union in Hkey as [Hkey|Hkey]);
    apply elem_of_singleton in Hkey; subst key; by simplify_map_eq.
Qed.

Lemma row_of_article_metadata (article : Article) :
  row_of_metadata (article_metadata article) = article_row article.
Proof.
  assert (forall key, key ∈ metadata_keys ->
            dict_get (article_metadata article) key ""
            = dict_get (fields article) key "") as Hget.
  { intros key Hkey. unfold dict_get at 1.
    by rewrite article_metadata_lookup. }
  unfold row_of_metadata, article_row.
  rewrite !Hget by (unfold metadata_keys; set_solver). done.
Qed.

Lemma row_of_article_metadata_all (articles : list Article) :
  row_of_metadata <$> (article_metadata <$> articles) = article_row <$> articles.
Proof.
  rewrite <-list_fmap_compose. apply list_fmap_ext. intros _ a _.
  apply row_of_article_metadata.
Qed.

Lemma batch_entries_metadata (idx : nat) (articles : list Article) :
  Chroma.e_metadata <$> batch_entries idx articles = article_metadata <$> articles.
Proof.
  revert idx. induction articles as [|a rest IH]; intros idx; [done|].
  cbn [batch_entries]. by rewrite !fmap_cons, IH.
Qed.

End IngestionFacts.

(** ** From ingestion to query *)
Section RoundTrip.

Import NewsRetriever.

Variable knn_search : list Chroma.Entry -> list float -> list (Chroma.Entry * float).
Variable embedding_function : string -> list float.

(** What goes in comes out: after a batch is ingested into an empty
    collection, a query for at least as many results as the batch has
    articles returns one row per article, each with the article's title,
    description and link and its publication date as [date_published],
    and no other row. *)
Theorem ingest_then_query_returns_every_article (self : NewsRetriever)
    (out : list string) (d : nat) (articles : list Article) (query_text : string)
    (k : Z) (embedder : option NewsEmbedder.NewsEmbedder) :
  Chroma.records (collection self) = [] ->
  ingestible self d articles ->
  Chroma.exhaustive knn_search ->
  length (query_vector embedding_function embedder query_text) = d ->
  (Z.of_nat (length articles) <= k)%Z ->
  exists self' out' df out'',
    add_documents articles (self, out) = (Ok PyNone, (self', out'))
    /\ query_to_dataframe knn_search embedding_function query_text k embedder
         (self', out')
       = (Ok df, (self', out''))
    /\ Pandas.rows df ≡ₚ article_row <$> articles.
Proof.
  intros Hempty Hing Hex Hq Hk.
  assert (Chroma.well_formed (collection self)) as Hwf.
  { unfold Chroma.well_formed, Chroma.ids_of. rewrite Hempty.
    split; [apply NoDup_nil_2 | apply Forall_nil_2]. }
  destruct (ingested_well_formed self d articles Hwf Hing) as [_ Hdim].
  assert (Chroma.records (collection (ingested self articles))
          = batch_entries 0 articles) as Hrec.
  { unfold ingested.
    cbn [collection with_collection Chroma.records Chroma.with_records].
    rewrite Hempty, upsert_all_fresh; [done | apply batch_entries_NoDup |].
    intros i _. apply not_elem_of_nil. }
  assert (0 < k)%Z as Hpos.
  { destruct Hing as (Hne & _). destruct articles; [done|]. cbn [length] in Hk. lia. }
  eexists _, _, _, _.
  split; [exact (add_documents_run self out d articles Hing)|].
  split.
  { apply query_to_dataframe_run; [done|]. right. by rewrite Hq. }
  cbn [Pandas.from_records Pandas.rows].
  unfold Chroma.hit_metadatas, Chroma.nearest. rewrite Hrec.
  rewrite take_ge; cycle 1.
  { rewrite exhaustive_length, batch_entries_length by done. lia. }
  rewrite <-row_of_article_metadata_all, <-(batch_entries_metadata 0).
  set (hits := knn_search (batch_entries 0 articles) _).
  assert ((fun x : Chroma.Entry * float => Chroma.e_metadata x.1) <$> hits
          = Chroma.e_metadata <$> hits.*1) as ->
    by (by rewrite <-list_fmap_compose).
  unfold hits. by rewrite (Hex (batch_entries 0 articles)).
Qed.

End RoundTrip.

(** ** From the embedder to the retriever *)
Section EmbedThenIngest.

Import NewsRetriever.



End EmbedThenIngest.

(** ** Ingesting a batch again *)
Section Reingestion.

Import NewsRetriever.

Implicit Types (e : Chroma.Entry) (l es : list Chroma.Entry).

Lemma upsert_record_present e l :
  Chroma.find_id (Chroma.e_id e) l = Some e -> Chroma.upsert_record e l = l.
Proof.
  unfold Chroma.find_id. induction l as [|x l IH]; cbn [find]; [discriminate|].
  cbn [Chroma.upsert_record]. case_bool_decide as Hid.
  - intros [= ->]. rewrite decide_True by done.
    by rewrite update_record_covered.
  - intros Hfind. rewrite decide_False by done. by rewrite IH.
Qed.

Lemma upsert_all_present es l :
  (forall e, e ∈ es -> Chroma.find_id (Chroma.e_id e) l = Some e) ->
  Chroma.upsert_all l es = l.
Proof.
  induction es as [|e es IH]; intros Hall; [done|].
  cbn [Chroma.upsert_all foldl]. change (foldl _ ?l0 es) with (Chroma.upsert_all l0 es).
  rewrite upsert_record_present by (apply Hall, elem_of_cons; by left).
  apply IH. intros x Hx. apply Hall, elem_of_cons. by right.
Qed.

(** Ingesting the same batch again changes nothing: the second call
    succeeds and leaves the retriever exactly as the first call left it,
    whatever the size of the batch. *)
Theorem add_documents_batch_idempotent (self : NewsRetriever) (out : list string)
    (d : nat) (articles : list Article) :
  Chroma.well_formed (collection self) ->
  Chroma.metadata_within metadata_keys (Chroma.records (collection self)) ->
  ingestible self d articles ->
  exists self1 out1 out2,
    add_documents articles (self, out) = (Ok PyNone, (self1, out1))
    /\ add_documents articles (self1, out1) = (Ok PyNone, (self1, out2)).
Proof.
  intros Hwf Hkeys Hing.
  destruct (ingested_well_formed self d articles Hwf Hing) as [_ Hdim].
  assert (ingestible (ingested self articles) d articles) as Hing'.
  { destruct Hing as (Hne & Hpos & Hall & _). split_and!; [done | done | done | by right]. }
  assert (ingested (ingested self articles) articles = ingested self articles) as Hsame.
  { unfold ingested at 1. unfold with_collection, Chroma.with_records.
    rewrite upsert_all_present; [done|].
    intros e He. unfold ingested.
    cbn [collection with_collection Chroma.records Chroma.with_records].
    by apply (find_id_upsert_all metadata_keys);
      [apply batch_entries_NoDup | apply batch_entries_keys | |]. }
  eexists _, _, _. split; [exact (add_documents_run self out d articles Hing)|].
  rewrite (add_documents_run _ _ d articles Hing'), Hsame. reflexivity.
Qed.

End Reingestion.

(** ** The pipeline with its vector store *)
Section PipelineStore.

Import NewsRetrievalPipeline.

Variable Embeddings : Type.
Variable VectorStore : Type.
Variable from_documents : list Document -> Embeddings -> string -> result VectorStore.
Variable similarity_search : VectorStore -> string -> Z -> result (list Document).

Abbreviation Pipeline := (NewsRetrievalPipeline Embeddings VectorStore).
Abbreviation bind_store := (with_vectorstore Embeddings VectorStore).
Abbreviation create := (create_vectorstore Embeddings VectorStore from_documents).
Abbreviation search := (query Embeddings VectorStore similarity_search).
Abbreviation search_frame := (query_to_dataframe Embeddings VectorStore similarity_search).
Abbreviation run :=
  (run_pipeline Embeddings VectorStore from_documents similarity_search).

(** A query on a bound pipeline is the store's search: its documents, or
    its error; the pipeline stays as it is. *)
Lemma query_bound (self : Pipeline) (out : list string) (vs : VectorStore)
    (query_text : string) (k : Z) :
  vectorstore _ _ self = Some vs ->
  search query_text k (self, out)
  = match similarity_search vs query_text k with
    | Ok results =>
        (Ok results,
         (self, out ++ [NL +:+ "Querying: '" +:+ query_text +:+ "'";
                        "Found " +:+ str_of_nat (length results) +:+ " results"]))
    | Raise e => (Raise e, (self, out ++ [NL +:+ "Querying: '" +:+ query_text +:+ "'"]))
    end.
Proof.
  intros Hvs. unfold query, mbind, M_bind, get_self, print, lift. cbn [fst snd].
  rewrite Hvs. cbn [fst snd].
  destruct (similarity_search vs query_text k) as [results|e]; [|done].
  cbn [mret M_ret fst snd]. by rewrite <-app_assoc.
Qed.

Lemma query_to_dataframe_bound (self : Pipeline) (out : list string) (vs : VectorStore)
    (query_text : string) (k : Z) :
  vectorstore _ _ self = Some vs ->
  search_frame query_text k (self, out)
  = match similarity_search vs query_text k with
    | Ok results =>
        (Ok (Pandas.from_records (document_row <$> results)),
         (self, out ++ [NL +:+ "Querying: '" +:+ query_text +:+ "'";
                        "Found " +:+ str_of_nat (length results) +:+ " results"]))
    | Raise e => (Raise e, (self, out ++ [NL +:+ "Querying: '" +:+ query_text +:+ "'"]))
    end.
Proof.
  intros Hvs. unfold query_to_dataframe, mbind, M_bind.
  rewrite (query_bound self out vs) by done.
  by destruct (similarity_search vs query_text k).
Qed.

Lemma create_vectorstore_run (self : Pipeline) (out : list string)
    (documents : list Document) :
  create documents (self, out)
  = match from_documents documents (embeddings _ _ self) (persist_directory _ _ self) with
    | Ok vs =>
        (Ok vs,
         (bind_store self vs,
          out ++ ["Creating vector store with " +:+ str_of_nat (length documents)
                    +:+ " documents...";
                  "Vector store created and persisted to: "
                    +:+ persist_directory _ _ self]))
    | Raise e =>
        (Raise e,
         (self, out ++ ["Creating vector store with "
                          +:+ str_of_nat (length documents) +:+ " documents..."]))
    end.
Proof.
  unfold create_vectorstore, mbind, M_bind, get_self, put_self, print, lift.
  cbn [fst snd].
  destruct (from_documents _ _ _) as [vs|e]; [|done].
  cbn [mret M_ret fst snd]. by rewrite <-app_assoc.
Qed.

(** Creating the vector store is what initializes the pipeline: when the
    store is built it is bound, and every later query is answered by the
    store's search and no longer by the error of an unbound pipeline;
    when building fails the pipeline is as it was, so an unbound one
    stays unbound. *)
Theorem create_vectorstore_then_query (self : Pipeline) (out out' : list string)
    (documents : list Document) (query_text : string) (k : Z) :
  match from_documents documents (embeddings _ _ self) (persist_directory _ _ self) with
  | Ok vs =>
      fst (create documents (self, out)) = Ok vs
      /\ fst (snd (create documents (self, out))) = bind_store self vs
      /\ fst (search query_text k (bind_store self vs, out'))
         = similarity_search vs query_text k
      /\ fst (snd (search query_text k (bind_store self vs, out'))) = bind_store self vs
  | Raise e =>
      fst (create documents (self, out)) = Raise e
      /\ fst (snd (create documents (self, out))) = self
  end.
Proof.
  rewrite create_vectorstore_run.
  destruct (from_documents _ _ _) as [vs|e]; [|done].
  rewrite (query_bound (bind_store self vs) out' vs) by reflexivity.
  by destruct (similarity_search vs query_text k).
Qed.

Variable load : string -> Embeddings -> result VectorStore.

(** Loading the persisted store initializes the pipeline as creating one
    does, and replaces whatever store was bound before: the store the
    library opens for the pipeline's directory and embeddings is bound
    and answers every later query; when opening fails the pipeline keeps
    what it had, a store bound earlier included. *)
Theorem load_vectorstore_then_query (self : Pipeline) (out out' : list string)
    (query_text : string) (k : Z) :
  match load (persist_directory _ _ self) (embeddings _ _ self) with
  | Ok vs =>
      load_vectorstore Embeddings VectorStore load (self, out)
      = (Ok vs,
         (bind_store self vs,
          out ++ ["Loading vector store from: " +:+ persist_directory _ _ self;
                  "Vector store loaded successfully"]))
      /\ fst (search query_text k (bind_store self vs, out'))
         = similarity_search vs query_text k
      /\ fst (snd (search query_text k (bind_store self vs, out'))) = bind_store self vs
  | Raise e =>
      load_vectorstore Embeddings VectorStore load (self, out)
      = (Raise e,
         (self, out ++ ["Loading vector store from: " +:+ persist_directory _ _ self]))
  end.
Proof.
  unfold load_vectorstore, mbind, M_bind, get_self, put_self, print, lift.
  cbn [fst snd].
  destruct (load _ _) as [vs|e]; [|done].
  cbn [mret M_ret fst snd]. rewrite <-app_assoc. split; [done|].
  rewrite (query_bound (bind_store self vs) out' vs) by reflexivity.
  by destruct (similarity_search vs query_text k).
Qed.

(** The frame of a pipeline query: it exists only on a bound pipeline
    whose search returned, and has one row per returned document, in the
    order of the search, with the four fields of a row; a metadata key a
    document lacks gives an empty string.  The pipeline is unchanged. *)
Theorem pipeline_query_to_dataframe_rows (self : Pipeline) (out : list string)
    (query_text : string) (k : Z) (df : Pandas.DataFrame)
    (st' : Pipeline * list string) :
  search_frame query_text k (self, out) = (Ok df, st') ->
  exists vs results,
    vectorstore _ _ self = Some vs
    /\ similarity_search vs query_text k = Ok results
    /\ Pandas.rows df = document_row <$> results
    /\ Forall (fun row => row.*1 = NewsRetriever.row_fields) (Pandas.rows df)
    /\ fst st' = self.
Proof.
  intros Hrun. destruct (vectorstore _ _ self) as [vs|] eqn:Hvs.
  - rewrite (query_to_dataframe_bound self out vs) in Hrun by done.
    destruct (similarity_search vs query_text k) as [results|e] eqn:Hs; [|discriminate].
    injection Hrun as <- <-. exists vs, results.
    split; [reflexivity|]. split; [exact Hs|]. split; [reflexivity|].
    split; [|reflexivity].
    cbn [Pandas.from_records Pandas.rows]. apply Forall_fmap, Forall_true. by intros doc.
  - unfold query_to_dataframe, query, mbind, M_bind, get_self, lift in Hrun.
    cbn [fst snd] in Hrun. rewrite Hvs in Hrun. discriminate.
Qed.

(** The whole pipeline run: the articles become documents with title and
    description as content and the four metadata fields; a store is
    built from them and bound, whatever store was bound before; the
    query is answered from it.  The run fails only where building the
    store or searching it fails, and a failed search leaves the new store
    bound. *)
Theorem run_pipeline_outcome (self : Pipeline) (out : list string)
    (articles : list Article) (query_text : string) (k : Z) :
  match from_documents (article_document <$> articles)
          (embeddings _ _ self) (persist_directory _ _ self) with
  | Raise e =>
      fst (run articles query_text k (self, out)) = Raise e
      /\ fst (snd (run articles query_text k (self, out))) = self
  | Ok vs =>
      fst (snd (run articles query_text k (self, out))) = bind_store self vs
      /\ fst (run articles query_text k (self, out))
         = match similarity_search vs query_text k with
           | Ok results => Ok (Pandas.from_records (document_row <$> results))
           | Raise e => Raise e
           end
  end.
Proof.
  unfold run_pipeline, load_articles_as_documents, mbind, M_bind, print.
  cbn [fst snd mret M_ret].
  change ((fun article => mkDocument (title_nl_description article)
                            (NewsRetriever.article_metadata article)) <$> articles)
    with (article_document <$> articles).
  rewrite create_vectorstore_run.
  destruct (from_documents _ _ _) as [vs|e]; [|done].
  cbn [fst snd].
  rewrite (query_to_dataframe_bound (bind_store self vs) _ vs) by reflexivity.
  by destruct (similarity_search vs query_text k).
Qed.

End PipelineStore.

(** ** Reading through the retriever *)
Section ReadOnly.

Import NewsRetriever.

Variable knn_search : list Chroma.Entry -> list float -> list (Chroma.Entry * float).
Variable embedding_function : string -> list float.

(** Queries and statistics never change the retriever, whether they
    return or raise: [query] and [query_to_dataframe] leave the collection
    as it is and print the one line of the query, [get_collection_stats]
    prints nothing. *)
Theorem retriever_reads_leave_collection (self : NewsRetriever) (out : list string)
    (query_text : string) (k : Z) (embedder : option NewsEmbedder.NewsEmbedder) :
  snd (query knn_search embedding_function query_text k embedder (self, out))
  = (self, out ++ [NL +:+ "Querying: '" +:+ query_text +:+ "'"])
  /\ snd (query_to_dataframe knn_search embedding_function query_text k embedder
            (self, out))
     = (self, out ++ [NL +:+ "Querying: '" +:+ query_text +:+ "'"])
  /\ snd (get_collection_stats (self, out)) = (self, out).
Proof.
  assert (snd (query knn_search embedding_function query_text k embedder (self, out))
          = (self, out ++ [NL +:+ "Querying: '" +:+ query_text +:+ "'"])) as Hq.
  { unfold query, mbind, M_bind, print, get_self, lift. cbn [fst snd].
    by destruct embedder. }
  split; [exact Hq|]. split; [|reflexivity].
  unfold query_to_dataframe, mbind, M_bind.
  destruct (query knn_search embedding_function query_text k embedder (self, out))
    as [[results|e] st]; cbn [snd] in Hq; by subst st.
Qed.

End ReadOnly.

(** ** The properties on the sample data *)

(** The two roundings on known values: 0.1 in 32 bits, a tie going to
    the even neighbour, a value beyond the 32-bit range; a third, an
    exact quotient, the largest quotient that is still a float and the
    first that is not. *)
Example float32_known_values :
  Chroma.float32 0x1.999999999999ap-4 = 0x1.99999ap-4%float
  /\ Chroma.float32 16777217 = 16777216%float
  /\ Chroma.float32 0x1p+128 = infinity
  /\ Chroma.float32 0.5 = 0.5%float.
Proof. repeat split; vm_compute; reflexivity. Qed.

Example py_truediv_known_values :
  py_truediv 1 3 = Ok 0x1.5555555555555p-2%float
  /\ py_truediv 74 2 = Ok 37%float
  /\ py_truediv (-7) 2 = Ok (-3.5)%float
  /\ py_truediv 1 0 = Raise (ZeroDivisionError "division by zero")
  /\ py_truediv (2 ^ 1024 - 2 ^ 970 - 1) 1 = Ok 0x1.fffffffffffffp+1023%float
  /\ py_truediv (2 ^ 1024 - 2 ^ 970) 1
     = Raise (OverflowError "integer division result too large for a float").
Proof. repeat split; vm_compute; reflexivity. Qed.

(** The token statistics of the two sample articles, and the part the
    encoding name plays: it is looked up once per article, so an unknown
    name raises on a non-empty list and is never looked at on the empty
    one. *)
Example analyze_corpus_tokens_sample :
  Tokenization.analyze_corpus_tokens Sample.get_encoding
    [Sample.doc_economia; Sample.doc_futbol] "cl100k_base"
  = Ok (Tokenization.mkCorpusTokens 2 74 (PyF 37%float) 30 44 [30%Z; 44%Z]).
Proof. vm_compute. reflexivity. Qed.

(** C10 on the sample data: the two sample articles under the known
    encoding. *)
Lemma analyze_corpus_tokens_total_witness :
  Forall2 (article_total Sample.get_encoding "cl100k_base")
    [Sample.doc_economia; Sample.doc_futbol] [30%Z; 44%Z]
  /\ Forall (fun n => (n < 2 ^ 63)%Z) [30%Z; 44%Z]
  /\ exists r,
       Tokenization.analyze_corpus_tokens Sample.get_encoding
         [Sample.doc_economia; Sample.doc_futbol] "cl100k_base"
       = Ok r
       /\ Tokenization.num_articles r
          = Z.of_nat (length [Sample.doc_economia; Sample.doc_futbol])
       /\ Tokenization.token_counts r = [30%Z; 44%Z]
       /\ Tokenization.total_tokens r = py_sum [30%Z; 44%Z]
       /\ py_truediv (py_sum [30%Z; 44%Z])
            (Z.of_nat (length [Sample.doc_economia; Sample.doc_futbol]))
          = Ok (round_quotient (py_sum [30%Z; 44%Z])
                  (Z.of_nat (length [Sample.doc_economia; Sample.doc_futbol])))
       /\ Tokenization.avg_tokens r
          = PyF (round_quotient (py_sum [30%Z; 44%Z])
                   (Z.of_nat (length [Sample.doc_economia; Sample.doc_futbol])))
       /\ py_min [30%Z; 44%Z] = Ok (Tokenization.min_tokens r)
       /\ py_max [30%Z; 44%Z] = Ok (Tokenization.max_tokens r).
Proof.
  assert (Forall2 (article_total Sample.get_encoding "cl100k_base")
            [Sample.doc_economia; Sample.doc_futbol] [30%Z; 44%Z]) as Hall.
  { apply Forall2_cons. split; [eexists; split; [vm_compute; reflexivity | reflexivity]|].
    apply Forall2_cons. split; [eexists; split; [vm_compute; reflexivity | reflexivity]|].
    apply Forall2_nil_2. }
  assert (Forall (fun n => (n < 2 ^ 63)%Z) [30%Z; 44%Z]) as Hsmall.
  { apply Forall_cons. split; [reflexivity|]. apply Forall_singleton. reflexivity. }
  split; [exact Hall|]. split; [exact Hsmall|].
  exact (analyze_corpus_tokens_total Sample.get_encoding
           [Sample.doc_economia; Sample.doc_futbol] "cl100k_base" [30%Z; 44%Z]
           Hall Hsmall).
Defined.

(** C10, as worded it fails: the function is not total on every list.
    Under an encoding name the tokenizer does not know, the analysis of
    a list of one article raises the tokenizer's error. *)
Lemma analyze_corpus_tokens_raises_on_unknown_encoding :
  Tokenization.analyze_corpus_tokens Sample.get_encoding [Sample.doc_economia] "p50k"
  = Raise (ValueError "Unknown encoding p50k").
Proof. vm_compute. reflexivity. Qed.








(** C8 on the sample data: the one row returned for the one stored document. *)
Lemma query_to_dataframe_row_fields_witness :
  NewsRetriever.query_to_dataframe Sample.scan_search Sample.flat_embedding
    "noticias de economia" 1 (Some Sample.embedder) (Sample.retriever_one, [])
  = (Ok (Pandas.mkDataFrame NewsRetriever.row_fields
           [[("title", "Economia crece 3%"); ("description", "El PBI subio");
             ("link", "https://x/1"); ("date_published", "2025-10-16")]]),
     (Sample.retriever_one, [NL +:+ "Querying: 'noticias de economia'"]))
  /\ [[("title", "Economia crece 3%"); ("description", "El PBI subio");
       ("link", "https://x/1"); ("date_published", "2025-10-16")]]
     = NewsRetriever.row_of_metadata
         <$> Chroma.hit_metadatas Sample.scan_search
               (NewsRetriever.collection Sample.retriever_one) 1
               (NewsRetriever.query_vector Sample.flat_embedding
                  (Some Sample.embedder) "noticias de economia")
  /\ Forall (fun row => row.*1 = NewsRetriever.row_fields)
       [[("title", "Economia crece 3%"); ("description", "El PBI subio");
         ("link", "https://x/1"); ("date_published", "2025-10-16")]]
  /\ Forall (fun row => Pandas.row_get row "score" = None)
       [[("title", "Economia crece 3%"); ("description", "El PBI subio");
         ("link", "https://x/1"); ("date_published", "2025-10-16")]]
  /\ NewsRetriever.row_fields = NewsRetriever.row_fields.
Proof.
  assert (NewsRetriever.query_to_dataframe Sample.scan_search Sample.flat_embedding
            "noticias de economia" 1 (Some Sample.embedder) (Sample.retriever_one, [])
          = (Ok (Pandas.mkDataFrame NewsRetriever.row_fields
                   [[("title", "Economia crece 3%"); ("description", "El PBI subio");
                     ("link", "https://x/1"); ("date_published", "2025-10-16")]]),
             (Sample.retriever_one, [NL +:+ "Querying: 'noticias de economia'"])))
    as Hrun by (vm_compute; reflexivity).
  split; [exact Hrun|].
  exact (query_to_dataframe_row_fields Sample.scan_search Sample.flat_embedding
           Sample.retriever_one [] "noticias de economia" 1 (Some Sample.embedder)
           _ _ Hrun).
Defined.

(** C8, as worded it fails: the one row returned for a stored
    document has the four metadata fields and no [score]. *)
Lemma query_to_dataframe_row_has_no_score :
  exists df row,
    fst (NewsRetriever.query_to_dataframe Sample.scan_search Sample.flat_embedding
           "noticias de economia" 1 (Some Sample.embedder) (Sample.retriever_one, []))
    = Ok df
    /\ Pandas.rows df = [row]
    /\ Pandas.columns df = ["title"; "description"; "link"; "date_published"]
    /\ Pandas.row_get row "link" = Some "https://x/1"
    /\ Pandas.row_get row "score" = None.
Proof.
  eexists _, _. split; [vm_compute; reflexivity|].
  split; [reflexivity|]. split; [reflexivity|]. split; reflexivity.
Qed.

(** C7, as worded it fails: the dictionary has the key
    [persist_directory] and no key [storage_location]. *)
Lemma get_collection_stats_has_no_storage_location :
  exists stats : gmap string pyval,
    fst (NewsRetriever.get_collection_stats (Sample.retriever, [])) = Ok stats
    /\ stats !! "storage_location" = None
    /\ stats !! "persist_directory" = Some (PyStr "./data/chromadb")
    /\ dom stats <> {["collection_name"; "document_count"; "storage_location"]}.
Proof.
  eexists. split; [reflexivity|].
  split; [vm_compute; reflexivity|]. split; [vm_compute; reflexivity|].
  intros Hdom.
  assert ("persist_directory"
            ∈ ({["collection_name"; "document_count"; "storage_location"]} : gset string))
    as Hin.
  { rewrite <-Hdom. apply elem_of_dom. eexists. vm_compute. reflexivity. }
  set_solver.
Qed.

(** C5 on the sample data: a pipeline as its constructor leaves it. *)
Lemma pipeline_query_uninitialized_witness :
  NewsRetrievalPipeline.vectorstore _ _ Sample.pipeline = None
  /\ NewsRetrievalPipeline.query _ _ Sample.list_search "noticias de economia" 5
       (Sample.pipeline, [])
     = (Raise (ValueError NewsRetrievalPipeline.not_initialized_message),
        (Sample.pipeline, []))
  /\ NewsRetrievalPipeline.query_to_dataframe _ _ Sample.list_search
       "noticias de economia" 5 (Sample.pipeline, [])
     = (Raise (ValueError NewsRetrievalPipeline.not_initialized_message),
        (Sample.pipeline, []))
  /\ exn_class (ValueError NewsRetrievalPipeline.not_initialized_message) = "ValueError".
Proof.
  split; [reflexivity|].
  exact (pipeline_query_uninitialized unit (list NewsRetrievalPipeline.Document)
           Sample.list_search Sample.pipeline [] "noticias de economia" 5 eq_refl).
Defined.

(** C5, as worded it fails: the exception raised on a pipeline
    without a vector store is a [ValueError]; no [NotInitializedError]
    exists in the code. *)
Lemma pipeline_query_raises_ValueError :
  exists e,
    fst (NewsRetrievalPipeline.query _ _ Sample.list_search "noticias de economia" 5
           (Sample.pipeline, []))
    = Raise e
    /\ exn_class e = "ValueError"
    /\ exn_class e <> "NotInitializedError".
Proof.
  eexists. split; [vm_compute; reflexivity|]. split; [reflexivity | discriminate].
Qed.

(** The invariants on the sample data: a batch of two into a collection of
    one document. *)
Lemma add_documents_preserves_well_formed_witness :
  Chroma.well_formed (NewsRetriever.collection Sample.retriever_one)
  /\ Chroma.metadata_within NewsRetriever.metadata_keys
       (Chroma.records (NewsRetriever.collection Sample.retriever_one))
  /\ NewsRetriever.ingestible Sample.retriever_one 2 [Sample.doc_futbol; Sample.doc_economia]
  /\ exists self' out',
       NewsRetriever.add_documents [Sample.doc_futbol; Sample.doc_economia]
         (Sample.retriever_one, [])
       = (Ok PyNone, (self', out'))
       /\ Chroma.well_formed (NewsRetriever.collection self')
       /\ Chroma.dimension (NewsRetriever.collection self') = Some 2
       /\ Chroma.metadata_within NewsRetriever.metadata_keys
            (Chroma.records (NewsRetriever.collection self'))
       /\ NewsRetriever.collection_name self' = "rpp_news"
       /\ NewsRetriever.persist_directory self' = "./data/chromadb".
Proof.
  assert (Chroma.well_formed (NewsRetriever.collection Sample.retriever_one)) as Hwf.
  { split; [apply NoDup_singleton | apply Forall_singleton; reflexivity]. }
  assert (NewsRetriever.ingestible Sample.retriever_one 2
            [Sample.doc_futbol; Sample.doc_economia]) as Hing.
  { split; [discriminate|]. split; [lia|]. split; [|right; reflexivity].
    apply Forall_cons. split; [eexists; split; reflexivity|].
    apply Forall_singleton. eexists. split; reflexivity. }
  assert (Chroma.metadata_within NewsRetriever.metadata_keys
            (Chroma.records (NewsRetriever.collection Sample.retriever_one))) as Hkeys.
  { apply Forall_singleton. vm_compute. set_solver. }
  split; [exact Hwf|]. split; [exact Hkeys|]. split; [exact Hing|].
  exact (add_documents_preserves_well_formed Sample.retriever_one [] 2
           [Sample.doc_futbol; Sample.doc_economia] Hwf Hkeys Hing).
Defined.

(** The alignment on the sample data: the sample model encodes a batch
    text by text. *)
Lemma embed_articles_aligned_witness :
  NewsEmbedder.encode_batch (NewsEmbedder.model Sample.embedder)
    (title_nl_description <$> [Sample.doc_economia; Sample.doc_futbol])
  = NewsEmbedder.encode (NewsEmbedder.model Sample.embedder)
      <$> (title_nl_description <$> [Sample.doc_economia; Sample.doc_futbol])
  /\ exists embedded out',
       NewsEmbedder.embed_articles Sample.embedder
         [Sample.doc_economia; Sample.doc_futbol] (tt, [])
       = (Ok embedded, (tt, out'))
       /\ length embedded = 2
       /\ forall i a, [Sample.doc_economia; Sample.doc_futbol] !! i = Some a ->
            embedded !! i
            = Some (mkArticle (<["text" := title_nl_description a]> (fields a))
                      (Some (NewsEmbedder.embed_text Sample.embedder
                               (title_nl_description a)))).
Proof.
  split; [reflexivity|].
  exact (embed_articles_aligned Sample.embedder [Sample.doc_economia; Sample.doc_futbol]
           (tt, []) eq_refl).
Defined.

(** The corpus statistics on the sample data: the two sample articles
    under the known encoding. *)
Lemma analyze_corpus_tokens_bounds_witness :
  Tokenization.analyze_corpus_tokens Sample.get_encoding
    [Sample.doc_economia; Sample.doc_futbol] "cl100k_base"
  = Ok (Tokenization.mkCorpusTokens 2 74 (PyF 37%float) 30 44 [30%Z; 44%Z])
  /\ Forall2 (article_total Sample.get_encoding "cl100k_base")
       [Sample.doc_economia; Sample.doc_futbol] [30%Z; 44%Z]
  /\ Forall (fun n => (0 <= n)%Z /\ (30 <= n <= 44)%Z) [30%Z; 44%Z]
  /\ ((30%Z ∈ [30%Z; 44%Z]) /\ (44%Z ∈ [30%Z; 44%Z]))
  /\ (2 * 30 <= 74 <= 2 * 44)%Z.
Proof.
  split; [vm_compute; reflexivity|].
  exact (analyze_corpus_tokens_bounds Sample.get_encoding
           [Sample.doc_economia; Sample.doc_futbol] "cl100k_base"
           (Tokenization.mkCorpusTokens 2 74 (PyF 37%float) 30 44 [30%Z; 44%Z])
           eq_refl).
Defined.

(** Concatenation on the sample data: the two sample articles analysed
    one by one and together. *)
Lemma analyze_corpus_tokens_app_witness :
  Tokenization.analyze_corpus_tokens Sample.get_encoding [Sample.doc_economia]
    "cl100k_base"
  = Ok (Tokenization.mkCorpusTokens 1 30 (PyF 30%float) 30 30 [30%Z])
  /\ Tokenization.analyze_corpus_tokens Sample.get_encoding [Sample.doc_futbol]
       "cl100k_base"
     = Ok (Tokenization.mkCorpusTokens 1 44 (PyF 44%float) 44 44 [44%Z])
  /\ exists r,
       Tokenization.analyze_corpus_tokens Sample.get_encoding
         ([Sample.doc_economia] ++ [Sample.doc_futbol]) "cl100k_base"
       = Ok r
       /\ Tokenization.token_counts r = [30%Z] ++ [44%Z]
       /\ Tokenization.total_tokens r = (30 + 44)%Z
       /\ Tokenization.num_articles r = (1 + 1)%Z.
Proof.
  split; [vm_compute; reflexivity|]. split; [vm_compute; reflexivity|].
  exact (analyze_corpus_tokens_app Sample.get_encoding
           [Sample.doc_economia] [Sample.doc_futbol] "cl100k_base"
           (Tokenization.mkCorpusTokens 1 30 (PyF 30%float) 30 30 [30%Z])
           (Tokenization.mkCorpusTokens 1 44 (PyF 44%float) 44 44 [44%Z])
           eq_refl eq_refl).
Defined.

(** The threshold on the sample data: a description of twelve tokens. *)
Lemma needs_chunking_threshold_witness :
  Tokenization.count_tokens Sample.get_encoding "El PBI subio" "cl100k_base" = Ok 12%Z
  /\ (0 <= 12)%Z
  /\ (forall m,
        Tokenization.needs_chunking Sample.get_encoding "El PBI subio" m "cl100k_base"
        = Ok (bool_decide (m < 12)%Z, 12%Z))
  /\ (forall m, (m < 0)%Z ->
        Tokenization.needs_chunking Sample.get_encoding "El PBI subio" m "cl100k_base"
        = Ok (true, 12%Z))
  /\ (forall m, (12 <= m)%Z ->
        Tokenization.needs_chunking Sample.get_encoding "El PBI subio" m "cl100k_base"
        = Ok (false, 12%Z)).
Proof.
  split; [vm_compute; reflexivity|].
  exact (needs_chunking_threshold Sample.get_encoding "El PBI subio" "cl100k_base" 12
           eq_refl).
Defined.

(** An unknown encoding on the sample data: the sample tokenizer does not
    know [p50k]. *)
Lemma unknown_encoding_raises_witness :
  Sample.get_encoding "p50k" = Raise (ValueError "Unknown encoding p50k")
  /\ [Sample.doc_economia; Sample.doc_futbol] <> []
  /\ Tokenization.analyze_article_tokens Sample.get_encoding Sample.doc_futbol "p50k"
     = Raise (ValueError "Unknown encoding p50k")
  /\ Tokenization.needs_chunking Sample.get_encoding "El PBI subio" 8191 "p50k"
     = Raise (ValueError "Unknown encoding p50k")
  /\ Tokenization.analyze_corpus_tokens Sample.get_encoding
       [Sample.doc_economia; Sample.doc_futbol] "p50k"
     = Raise (ValueError "Unknown encoding p50k")
  /\ Tokenization.analyze_corpus_tokens Sample.get_encoding [] "p50k"
     = Ok (Tokenization.mkCorpusTokens 0 0 (PyI 0) 0 0 []).
Proof.
  split; [reflexivity|]. split; [discriminate|].
  exact (unknown_encoding_raises Sample.get_encoding "p50k"
           (ValueError "Unknown encoding p50k")
           [Sample.doc_economia; Sample.doc_futbol] Sample.doc_futbol
           "El PBI subio" 8191 eq_refl ltac:(discriminate)).
Defined.

(** The counted text on the sample data: the first sample article. *)
Lemma analyze_article_tokens_counts_embedded_text_witness :
  Tokenization.analyze_article_tokens Sample.get_encoding Sample.doc_economia
    "cl100k_base"
  = Ok (Tokenization.mkArticleTokens "Economia crece 3%" 17 12 30
          (title_nl_description Sample.doc_economia))
  /\ title_nl_description Sample.doc_economia
     = title_nl_description Sample.doc_economia
  /\ Tokenization.count_tokens Sample.get_encoding
       (title_nl_description Sample.doc_economia) "cl100k_base"
     = Ok 30%Z
  /\ Tokenization.count_tokens Sample.get_encoding
       (dict_get (fields Sample.doc_economia) "title" "") "cl100k_base"
     = Ok 17%Z
  /\ Tokenization.count_tokens Sample.get_encoding
       (dict_get (fields Sample.doc_economia) "description" "") "cl100k_base"
     = Ok 12%Z
  /\ "Economia crece 3%" = dict_get (fields Sample.doc_economia) "title" "".
Proof.
  split; [vm_compute; reflexivity|].
  exact (analyze_article_tokens_counts_embedded_text Sample.get_encoding
           Sample.doc_economia "cl100k_base"
           (Tokenization.mkArticleTokens "Economia crece 3%" 17 12 30
              (title_nl_description Sample.doc_economia))
           eq_refl).
Defined.

(** A missing vector on the sample data: the second article of the batch
    has no embedding. *)
Lemma add_documents_missing_embedding_witness :
  Exists (fun a => embedding a = None)
    [Sample.doc_economia; mkArticle (fields Sample.doc_futbol) None]
  /\ NewsRetriever.add_documents
       [Sample.doc_economia; mkArticle (fields Sample.doc_futbol) None]
       (Sample.retriever, [])
     = (Raise (KeyError "embedding"),
        (Sample.retriever,
         [] ++ ["Adding " +:+ str_of_nat 2 +:+ " documents to collection..."])).
Proof.
  assert (Exists (fun a => embedding a = None)
            [Sample.doc_economia; mkArticle (fields Sample.doc_futbol) None]) as Hex.
  { apply Exists_cons_tl, Exists_cons_hd. reflexivity. }
  split; [exact Hex|].
  exact (add_documents_missing_embedding Sample.retriever []
           [Sample.doc_economia; mkArticle (fields Sample.doc_futbol) None] Hex).
Defined.

(** Positional ids on the sample data: a batch of two into the
    collection that holds [article_0]. *)
Lemma add_documents_positional_prefix_witness :
  Chroma.ids_of (NewsRetriever.collection Sample.retriever_one)
  = NewsRetriever.article_id <$> seq 0 1
  /\ NewsRetriever.ingestible Sample.retriever_one 2
       [Sample.doc_futbol; Sample.doc_economia]
  /\ exists self' out',
       NewsRetriever.add_documents [Sample.doc_futbol; Sample.doc_economia]
         (Sample.retriever_one, [])
       = (Ok PyNone, (self', out'))
       /\ Chroma.ids_of (NewsRetriever.collection self')
          = NewsRetriever.article_id <$> seq 0 (1 `max` 2)
       /\ Chroma.count (NewsRetriever.collection self') = Z.of_nat (1 `max` 2).
Proof.
  assert (NewsRetriever.ingestible Sample.retriever_one 2
            [Sample.doc_futbol; Sample.doc_economia]) as Hing.
  { split; [discriminate|]. split; [lia|]. split; [|right; reflexivity].
    apply Forall_cons. split; [eexists; split; reflexivity|].
    apply Forall_singleton. eexists. split; reflexivity. }
  split; [reflexivity|]. split; [exact Hing|].
  exact (add_documents_positional_prefix Sample.retriever_one [] 2 1
           [Sample.doc_futbol; Sample.doc_economia] eq_refl Hing).
Defined.

(** The other records on the sample data: one document into the
    collection that holds [article_0]. *)
Lemma add_documents_keeps_other_records_witness :
  NewsRetriever.ingestible Sample.retriever_one 2 [Sample.doc_futbol]
  /\ exists self' out',
       NewsRetriever.add_documents [Sample.doc_futbol] (Sample.retriever_one, [])
       = (Ok PyNone, (self', out'))
       /\ Chroma.ids_of (NewsRetriever.collection Sample.retriever_one)
          `prefix_of` Chroma.ids_of (NewsRetriever.collection self')
       /\ (forall i, i ∉ NewsRetriever.article_id <$> seq 0 1 ->
             Chroma.get (NewsRetriever.collection self') i
             = Chroma.get (NewsRetriever.collection Sample.retriever_one) i)
       /\ (Chroma.count (NewsRetriever.collection Sample.retriever_one)
           <= Chroma.count (NewsRetriever.collection self')
           <= Chroma.count (NewsRetriever.collection Sample.retriever_one)
              + Z.of_nat 1)%Z.
Proof.
  assert (NewsRetriever.ingestible Sample.retriever_one 2 [Sample.doc_futbol]) as Hing.
  { split; [discriminate|]. split; [lia|]. split; [|right; reflexivity].
    apply Forall_singleton. eexists. split; reflexivity. }
  split; [exact Hing|].
  exact (add_documents_keeps_other_records Sample.retriever_one [] 2
           [Sample.doc_futbol] Hing).
Defined.

(** Ingesting again on the sample data: a batch of two into the
    collection that holds one document, twice. *)
Lemma add_documents_batch_idempotent_witness :
  Chroma.well_formed (NewsRetriever.collection Sample.retriever_one)
  /\ Chroma.metadata_within NewsRetriever.metadata_keys
       (Chroma.records (NewsRetriever.collection Sample.retriever_one))
  /\ NewsRetriever.ingestible Sample.retriever_one 2
       [Sample.doc_futbol; Sample.doc_economia]
  /\ exists self1 out1 out2,
       NewsRetriever.add_documents [Sample.doc_futbol; Sample.doc_economia]
         (Sample.retriever_one, [])
       = (Ok PyNone, (self1, out1))
       /\ NewsRetriever.add_documents [Sample.doc_futbol; Sample.doc_economia]
            (self1, out1)
          = (Ok PyNone, (self1, out2)).
Proof.
  assert (Chroma.well_formed (NewsRetriever.collection Sample.retriever_one)) as Hwf.
  { split; [apply NoDup_singleton | apply Forall_singleton; reflexivity]. }
  assert (NewsRetriever.ingestible Sample.retriever_one 2
            [Sample.doc_futbol; Sample.doc_economia]) as Hing.
  { split; [discriminate|]. split; [lia|]. split; [|right; reflexivity].
    apply Forall_cons. split; [eexists; split; reflexivity|].
    apply Forall_singleton. eexists. split; reflexivity. }
  assert (Chroma.metadata_within NewsRetriever.metadata_keys
            (Chroma.records (NewsRetriever.collection Sample.retriever_one))) as Hkeys.
  { apply Forall_singleton. vm_compute. set_solver. }
  split; [exact Hwf|]. split; [exact Hkeys|]. split; [exact Hing|].
  exact (add_documents_batch_idempotent Sample.retriever_one [] 2
           [Sample.doc_futbol; Sample.doc_economia] Hwf Hkeys Hing).
Defined.

(** The round trip on the sample data: the two sample articles into a new
    collection, then five results asked of a search that scans the
    records. *)
Lemma ingest_then_query_returns_every_article_witness :
  Chroma.records (NewsRetriever.collection Sample.retriever) = []
  /\ NewsRetriever.ingestible Sample.retriever 2 [Sample.doc_economia; Sample.doc_futbol]
  /\ Chroma.exhaustive Sample.scan_search
  /\ length (NewsRetriever.query_vector Sample.flat_embedding (Some Sample.embedder)
               "noticias de economia") = 2
  /\ (Z.of_nat (length [Sample.doc_economia; Sample.doc_futbol]) <= 5)%Z
  /\ exists self' out' df out'',
       NewsRetriever.add_documents [Sample.doc_economia; Sample.doc_futbol]
         (Sample.retriever, [])
       = (Ok PyNone, (self', out'))
       /\ NewsRetriever.query_to_dataframe Sample.scan_search Sample.flat_embedding
            "noticias de economia" 5 (Some Sample.embedder) (self', out')
          = (Ok df, (self', out''))
       /\ Pandas.rows df ≡ₚ article_row <$> [Sample.doc_economia; Sample.doc_futbol].
Proof.
  assert (NewsRetriever.ingestible Sample.retriever 2
            [Sample.doc_economia; Sample.doc_futbol]) as Hing.
  { split; [discriminate|]. split; [lia|]. split; [|left; reflexivity].
    apply Forall_cons. split; [eexists; split; reflexivity|].
    apply Forall_singleton. eexists. split; reflexivity. }
  assert (Chroma.exhaustive Sample.scan_search) as Hex.
  { intros l q. unfold Sample.scan_search. rewrite <-list_fmap_compose.
    by rewrite list_fmap_id. }
  assert (Z.of_nat (length [Sample.doc_economia; Sample.doc_futbol]) <= 5)%Z as Hk.
  { cbn [length]. lia. }
  split; [reflexivity|]. split; [exact Hing|]. split; [exact Hex|].
  split; [reflexivity|]. split; [exact Hk|].
  exact (ingest_then_query_returns_every_article Sample.scan_search
           Sample.flat_embedding Sample.retriever [] 2
           [Sample.doc_economia; Sample.doc_futbol] "noticias de economia" 5
           (Some Sample.embedder) eq_refl Hing Hex eq_refl Hk).
Defined.


(** The frame of a pipeline query on the sample data: one result asked of
    the pipeline bound to the two sample documents. *)
Lemma pipeline_query_to_dataframe_rows_witness :
  NewsRetrievalPipeline.query_to_dataframe unit (list NewsRetrievalPipeline.Document)
    Sample.list_search "economia" 1 (sample_pipeline_bound, [])
  = (Ok (Pandas.from_records [article_row Sample.doc_economia]),
     (sample_pipeline_bound, [NL +:+ "Querying: '" +:+ "economia" +:+ "'";
                              "Found " +:+ str_of_nat 1 +:+ " results"]))
  /\ exists vs results,
       NewsRetrievalPipeline.vectorstore _ _ sample_pipeline_bound = Some vs
       /\ Sample.list_search vs "economia" 1 = Ok results
       /\ Pandas.rows (Pandas.from_records [article_row Sample.doc_economia])
          = document_row <$> results
       /\ Forall (fun row => row.*1 = NewsRetriever.row_fields)
            (Pandas.rows (Pandas.from_records [article_row Sample.doc_economia]))
       /\ fst (sample_pipeline_bound,
               [NL +:+ "Querying: '" +:+ "economia" +:+ "'";
                "Found " +:+ str_of_nat 1 +:+ " results"])
          = sample_pipeline_bound.
Proof.
  split; [vm_compute; reflexivity|].
  exact (pipeline_query_to_dataframe_rows unit (list NewsRetrievalPipeline.Document)
           Sample.list_search sample_pipeline_bound [] "economia" 1
           (Pandas.from_records [article_row Sample.doc_economia])
           (sample_pipeline_bound, [NL +:+ "Querying: '" +:+ "economia" +:+ "'";
                                    "Found " +:+ str_of_nat 1 +:+ " results"])
           eq_refl).
Defined.
